(** * Grafomer and its student model: a shallow embedding

    The development embeds the parts of [src/student_model.py] and
    [src/model.py] that the specification talks about:

    - the teacher registry [TeacherWeightGroup] and its selection of a
      group of teacher tensors ([generate_weight_group]);
    - the generators [WeightGenerator] and [BiasGenerator] (constructor,
      [init_weights_], [forward]) and [StudentLinear];
    - the input checks of [StudentDecoderModel.forward] and
      [StudentEncoderModel.forward];
    - [prepare_inputs_for_generation] of [StudentDecoderLMHeadModel] and
      of [GrafomerModel], and [GrafomerModel.forward];
    - the heads of the decoder attention, the cache of a beam search,
      [EncoderPooler], [StudentEncoder] and [GraftAttentionModule].

    Python code is embedded in a state-and-exception monad.  Tensors carry
    a shape and their entries in row-major order; the entries are real
    numbers in the place of the floating-point numbers of the runtime, and
    no statement is about the value of an arithmetic operation. *)

From Stdlib Require Import String Ascii List Bool Arith ZArith Lia.
From Stdlib Require Import Reals.
Import ListNotations.

Local Open Scope string_scope.
Local Open Scope list_scope.
Local Open Scope nat_scope.

(** ** Exceptions and outcomes *)

(** The exception classes that the embedded code can raise.  The source
    defines no exception class of its own: every exception is one of the
    Python runtime, of torch or of tensorly. *)
Inductive exn : Type :=
| NameError (name : string)
| AttributeError (what : string)
| ValueError (msg : string)
| TypeError (msg : string)
| RuntimeError (msg : string)
| IndexError (msg : string)
| ZeroDivisionError.

Inductive outcome (A : Type) : Type :=
| Ok (a : A)
| Raise (e : exn).

Arguments Ok {A} a.
Arguments Raise {A} e.

Definition raised {A : Type} (r : outcome A) : bool :=
  match r with Ok _ => false | Raise _ => true end.

(** ** Tensors *)

(** A tensor: its shape and its entries in row-major order.  The runtime
    holds floating-point entries; they are real numbers here, so that the
    arithmetic on them is exact, with no rounding, no infinity and no NaN.
    The statements of this development are about shapes, about the places
    to which entries are moved and about outcomes; none is about the value
    that an arithmetic operation yields. *)
Record tensor : Type := mkTensor { shape : list nat; data : list R }.

Definition numel (s : list nat) : nat := fold_right Nat.mul 1 s.

(** A tensor of the runtime always holds as many entries as its shape says. *)
Definition wf (t : tensor) : Prop := length (data t) = numel (shape t).

Definition shape_eqb (s1 s2 : list nat) : bool :=
  if list_eq_dec Nat.eq_dec s1 s2 then true else false.

(** [chunks n size d]: the [n] consecutive blocks of [size] entries of [d]. *)
Fixpoint chunks (n size : nat) (d : list R) : list (list R) :=
  match n with
  | O => []
  | S n' => firstn size d :: chunks n' size (skipn size d)
  end.

Fixpoint map2 {A B C : Type} (f : A -> B -> C) (l1 : list A) (l2 : list B)
  : list C :=
  match l1, l2 with
  | a :: l1', b :: l2' => f a b :: map2 f l1' l2'
  | _, _ => []
  end.

(** Broadcasting of two shapes, aligned at the last axis (torch semantics):
    equal sizes agree, a size 1 stretches to the other size. *)
Fixpoint broadcast_rev (s1 s2 : list nat) : option (list nat) :=
  match s1, s2 with
  | [], s => Some s
  | s, [] => Some s
  | a :: r1, b :: r2 =>
      match broadcast_rev r1 r2 with
      | None => None
      | Some r =>
          if a =? b then Some (a :: r)
          else if a =? 1 then Some (b :: r)
          else if b =? 1 then Some (a :: r)
          else None
      end
  end.

Definition broadcast_shapes (s1 s2 : list nat) : option (list nat) :=
  option_map (@rev nat) (broadcast_rev (rev s1) (rev s2)).

Definition pad_left (n : nat) (s : list nat) : list nat :=
  repeat 1 (n - length s) ++ s.

(** [expand src tgt d]: the entries of a tensor of shape [src] stretched to
    the shape [tgt] of the same rank. *)
Fixpoint expand (src tgt : list nat) (d : list R) : list R :=
  match src, tgt with
  | a :: src', b :: tgt' =>
      if a =? b
      then flat_map (expand src' tgt') (chunks a (numel src') d)
      else concat (repeat (expand src' tgt' d) b)
  | _, _ => d
  end.

(** Weighted sum of the blocks [vs] with the coefficients [cs]. *)
Fixpoint lincomb (size : nat) (cs : list R) (vs : list (list R)) : list R :=
  match cs, vs with
  | c :: cs', v :: vs' =>
      map2 Rplus (map (Rmult c) v) (lincomb size cs' vs')
  | _, _ => repeat 0%R size
  end.

(** ** Objects *)

#[local] Set Warnings "-register-all".

(** A value held in an attribute: a plain tensor, an [nn.Parameter], or an
    [nn.Module] instance with its class name, whether [nn.Module.__init__]
    has run on it, and its attributes. *)
Inductive value : Type :=
| VTensor (t : tensor)
| VParameter (t : tensor)
| VModule (cls : string) (ready : bool) (attrs : list (string * value)).

Fixpoint lookup {A : Type} (k : string) (l : list (string * A)) : option A :=
  match l with
  | [] => None
  | (k', v) :: l' => if String.eqb k k' then Some v else lookup k l'
  end.

Fixpoint update {A : Type} (k : string) (v : A) (l : list (string * A))
  : list (string * A) :=
  match l with
  | [] => [(k, v)]
  | (k', v') :: l' =>
      if String.eqb k k' then (k, v) :: l' else (k', v') :: update k v l'
  end.

(** ** The teacher network and the interpreter state *)

(** A teacher network as the selection sees it: the named parameters of its
    [encoder] and [decoder] sub-modules, in traversal order. *)
Record network : Type := mkNetwork {
  encoder : list (string * tensor);
  decoder : list (string * tensor)
}.

(** [teacher_model] is the class attribute [TeacherWeightGroup.teacher_model];
    [torch_log] lists the calls into the tensor runtime that have completed,
    the latest first; [rng] and [rng_next] are the stream of the random
    number generator and the position in it. *)
Record pystate : Type := mkState {
  teacher_model : option network;
  torch_log : list string;
  rng : nat -> R;
  rng_next : nat
}.

Definition M (A : Type) : Type := pystate -> outcome A * pystate.

Definition ret {A : Type} (a : A) : M A := fun st => (Ok a, st).

Definition raise {A : Type} (e : exn) : M A := fun st => (Raise e, st).

Definition bind {A B : Type} (m : M A) (k : A -> M B) : M B :=
  fun st =>
    match m st with
    | (Ok a, st') => k a st'
    | (Raise e, st') => (Raise e, st')
    end.

Declare Scope py_scope.
Delimit Scope py_scope with py.
Notation "x <- m ;; k" := (bind m (fun x => k))
  (at level 61, m at next level, right associativity) : py_scope.
Notation "' pat <- m ;; k" := (bind m (fun x => match x with pat => k end))
  (at level 61, pat pattern, m at next level, right associativity) : py_scope.
Notation "m ;;; k" := (bind m (fun _ => k))
  (at level 61, right associativity) : py_scope.
Local Open Scope py_scope.

(** A call into the tensor runtime that completes is recorded. *)
Definition logged (op : string) (st : pystate) : pystate :=
  mkState (teacher_model st) (op :: torch_log st) (rng st) (rng_next st).

Definition torch_done (op : string) : M unit :=
  fun st => (Ok tt, logged op st).

(** [n] fresh values of the generator. *)
Definition draw (n : nat) : M (list R) :=
  fun st => (Ok (map (rng st) (seq (rng_next st) n)),
             mkState (teacher_model st) (torch_log st) (rng st)
                     (rng_next st + n)).

(** ** Names *)

(** What a module-level name can be bound to. *)
Inductive pyval : Type :=
| PStr (s : string)
| PInt (z : Z)
| PObject (name : string).

(** The names bound at module level of [student_model.py] once its body has
    run: its imports, its [logger] and its classes.  (The functions are
    taken as they are defined; the module body itself calls
    [logging.get_logger] on the standard [logging] module.) *)
Definition module_globals : list (string * pyval) :=
  map (fun n => (n, PObject n))
    [ "math"; "logging"; "dataclass"; "torch"; "nn"; "F"; "version"; "init";
      "multi_mode_dot"; "GenerationMixin"; "PushToHubMixin";
      "ModuleUtilsMixin"; "apply_chunking_to_forward";
      "find_pruneable_heads_and_indices"; "prune_linear_layer";
      "BartEncoderLayer"; "BartDecoderLayer"; "gelu_new";
      "BaseModelOutputWithPastAndCrossAttentions";
      "BaseModelOutputWithPoolingAndCrossAttentions";
      "CausalLMOutputWithCrossAttentions"; "logger";
      "TeacherWeightGroup"; "WeightGenerator"; "BiasGenerator";
      "StudentGrafomerModel"; "StudentGraftAttentionModule"; "StudentLinear";
      "StudentMLP"; "StudentDecoderAttention"; "StudentDecoderBlock";
      "StudentDecoderModel"; "StudentDecoderLMHeadModel"; "EncoderEmbeddings";
      "StudentEncoderSelfAttention"; "EncoderSelfOutput";
      "StudentEncoderAttention"; "StudentEncoderIntermediate";
      "StudentEncoderOutput"; "StudentEncoderLayer"; "StudentEncoder";
      "EncoderPooler"; "StudentEncoderModel" ].

(** A name that is not local to a function is looked up in the module (the
    builtins of Python, searched last, bind none of the names looked up in
    this development). *)
Definition load_global (name : string) : M pyval :=
  match lookup name module_globals with
  | Some v => ret v
  | None => raise (NameError name)
  end.

Definition as_str (v : pyval) : M string :=
  match v with
  | PStr s => ret s
  | _ => raise (TypeError "'in <string>' requires string as left operand")
  end.

Definition as_int (v : pyval) : M Z :=
  match v with
  | PInt z => ret z
  | _ => raise (TypeError "unsupported operand type(s)")
  end.

(** ** Strings *)

(** [s.split(sep, 1)] for a one-character separator: the text before and
    after the first separator, or [None] when there is none (the list has
    then one element). *)
Fixpoint split_first (sep : ascii) (s : string) : option (string * string) :=
  match s with
  | EmptyString => None
  | String c s' =>
      if Ascii.eqb c sep then Some (EmptyString, s')
      else match split_first sep s' with
           | Some (a, b) => Some (String c a, b)
           | None => None
           end
  end.

(** [needle in hay] on strings. *)
Fixpoint contains (needle hay : string) : bool :=
  String.prefix needle hay
  || match hay with
     | EmptyString => false
     | String _ hay' => contains needle hay'
     end.

(** ** The tensor runtime *)

(** [torch.stack]: the tensors, all of one shape, along a new first axis. *)
Definition torch_stack (ts : list tensor) : M tensor :=
  match ts with
  | [] => raise (RuntimeError "stack expects a non-empty TensorList")
  | t :: rest =>
      if forallb (fun u => shape_eqb (shape u) (shape t)) rest
      then torch_done "stack" ;;;
           ret (mkTensor (length ts :: shape t) (concat (map data ts)))
      else raise (RuntimeError "stack expects each tensor to be equal size")
  end.

(** A bound of a Python slice over a sequence of length [len]. *)
Definition slice_bound (len x : Z) : Z :=
  if (x <? 0)%Z then Z.max (x + len) 0 else Z.min x len.

(** [t[start:stop]]: the slice along the first axis. *)
Definition tensor_slice (t : tensor) (start stop : Z) : M tensor :=
  match shape t with
  | [] => raise (IndexError "slice() cannot be applied to a 0-dim tensor.")
  | n :: rest =>
      let lo := Z.to_nat (slice_bound (Z.of_nat n) start) in
      let hi := Z.to_nat (slice_bound (Z.of_nat n) stop) in
      let size := numel rest in
      torch_done "slice" ;;;
      ret (mkTensor ((hi - lo) :: rest)
             (firstn ((hi - lo) * size) (skipn (lo * size) (data t))))
  end.

(** [int(a / b)]: true division, then truncation. *)
Definition int_truediv (a b : Z) : M Z :=
  if (b =? 0)%Z then raise ZeroDivisionError else ret (Z.quot a b).

Definition dims_of (dims : list Z) : M (list nat) :=
  if forallb (fun z => (0 <=? z)%Z) dims then ret (map Z.to_nat dims)
  else raise (RuntimeError "Trying to create tensor with negative dimension").

(** [torch.empty]: the entries are whatever the memory holds. *)
Definition torch_empty (dims : list Z) : M tensor :=
  s <- dims_of dims ;;
  d <- draw (numel s) ;;
  torch_done "empty" ;;;
  ret (mkTensor s d).

Definition torch_ones (dims : list Z) : M tensor :=
  s <- dims_of dims ;;
  torch_done "ones" ;;;
  ret (mkTensor s (repeat 1%R (numel s))).

Definition torch_zeros (dims : list Z) : M tensor :=
  s <- dims_of dims ;;
  torch_done "zeros" ;;;
  ret (mkTensor s (repeat 0%R (numel s))).

Definition nn_Parameter (t : tensor) : M value :=
  torch_done "Parameter" ;;;
  ret (VParameter t).

(** [nn.Tanh()]: a module on which [nn.Module.__init__] has run. *)
Definition nn_Tanh : M value :=
  torch_done "Tanh" ;;;
  ret (VModule "Tanh" true []).

(** [init.xavier_uniform_]: fills the tensor in place with samples of the
    uniform distribution on [(-a, a)], [a = sqrt (6 / (fan_in + fan_out))];
    [rng] yields the samples on [(-1, 1)]. *)
Definition xavier_uniform_ (t : tensor) : M tensor :=
  match shape t with
  | d0 :: d1 :: rest =>
      let fan_in := d1 * numel rest in
      let fan_out := d0 * numel rest in
      let a := sqrt (6 / INR (fan_in + fan_out)) in
      u <- draw (numel (shape t)) ;;
      torch_done "xavier_uniform_" ;;;
      ret (mkTensor (shape t) (map (Rmult a) u))
  | _ =>
      raise (ValueError "Fan in and fan out can not be computed for tensor with fewer than 2 dimensions")
  end.

(** The backends of tensorly.  A process selects one with
    [tensorly.set_backend]; the module never does, so that tensorly runs on
    the backend with which it starts, numpy. *)
Inductive backend : Type := numpy | pytorch.

Definition tensorly_backend : backend := numpy.

(** [multi_mode_dot(t, modes=[0], matrix_or_vec_list=[m])] of tensorly: the
    product of [t] along its first axis by the matrix (or vector) [m].
    Once the sizes are compared, tensorly unfolds [t] with the [moveaxis]
    of its backend: on numpy that is [np.moveaxis], which calls
    [t.transpose] with a list of axes, and a torch tensor answers
    [TypeError]; on pytorch the product is computed. *)
Definition multi_mode_dot_on (b : backend) (t m : tensor) : M tensor :=
  match shape m with
  | [rows; cols] =>
      match shape t with
      | [] => raise (IndexError "tuple index out of range")
      | n :: rest =>
          if cols =? n
          then match b with
               | numpy =>
                   raise (TypeError "transpose() received an invalid combination of arguments")
               | pytorch =>
                   torch_done "multi_mode_dot" ;;;
                   ret (mkTensor (rows :: rest)
                          (flat_map
                             (fun row => lincomb (numel rest) row
                                           (chunks n (numel rest) (data t)))
                             (chunks rows cols (data m))))
               end
          else raise (ValueError "shapes not aligned in mode-0 multiplication")
      end
  | [cols] =>
      match shape t with
      | [] => raise (IndexError "tuple index out of range")
      | n :: rest =>
          if cols =? n
          then match b with
               | numpy =>
                   raise (TypeError "transpose() received an invalid combination of arguments")
               | pytorch =>
                   torch_done "multi_mode_dot" ;;;
                   ret (mkTensor (match rest with [] => [1] | _ => rest end)
                          (lincomb (numel rest) (data m)
                             (chunks n (numel rest) (data t))))
               end
          else raise (ValueError "shapes not aligned in mode-0 multiplication")
      end
  | _ =>
      raise (ValueError "Can only take n_mode_product with a vector or a matrix.")
  end.

(** The call of the module: on the backend that tensorly runs on. *)
Definition multi_mode_dot (t m : tensor) : M tensor :=
  multi_mode_dot_on tensorly_backend t m.

(** [t.squeeze(0)]: drops the first axis when its size is 1. *)
Definition squeeze0 (t : tensor) : M tensor :=
  torch_done "squeeze" ;;;
  ret (match shape t with
       | 1 :: rest => mkTensor rest (data t)
       | _ => t
       end).

(** An elementwise operation of two tensors, with broadcasting. *)
Definition elementwise (op : string) (f : R -> R -> R) (a b : tensor)
  : M tensor :=
  match broadcast_shapes (shape a) (shape b) with
  | None =>
      raise (RuntimeError "The size of tensor a must match the size of tensor b")
  | Some s =>
      torch_done op ;;;
      ret (mkTensor s
             (map2 f (expand (pad_left (length s) (shape a)) s (data a))
                     (expand (pad_left (length s) (shape b)) s (data b))))
  end.

Definition tensor_mul : tensor -> tensor -> M tensor := elementwise "mul" Rmult.
Definition tensor_add : tensor -> tensor -> M tensor := elementwise "add" Rplus.

Definition dot (x y : list R) : R := fold_right Rplus 0%R (map2 Rmult x y).

(** [F.linear(inputs, weight, bias)] for a weight matrix [(out, in)] and a
    bias vector [(out,)]: [inputs @ weight^T + bias] over the last axis.
    (torch also takes a weight vector and a missing bias; the code passes a
    matrix and a vector.) *)
Definition F_linear (inputs weight bias : tensor) : M tensor :=
  match shape weight, rev (shape inputs) with
  | [o; i], i' :: lead =>
      if (i =? i') && shape_eqb (shape bias) [o]
      then torch_done "linear" ;;;
           ret (mkTensor (rev lead ++ [o])
                  (flat_map
                     (fun x => map2 Rplus
                                 (map (dot x) (chunks o i (data weight)))
                                 (data bias))
                     (chunks (numel lead) i (data inputs))))
      else raise (RuntimeError "mat1 and mat2 shapes cannot be multiplied")
  | _, _ => raise (RuntimeError "mat1 and mat2 shapes cannot be multiplied")
  end.

(** ** Attributes of a module *)

(** [nn.Module.__setattr__]: a parameter or a sub-module can be assigned only
    after [nn.Module.__init__] has run on the object; a plain tensor goes to
    the instance dictionary, unless the name is that of a parameter or of a
    sub-module. *)
Definition Module_setattr (self : value) (name : string) (v : value)
  : M value :=
  match self with
  | VModule cls ready attrs =>
      match v with
      | VParameter _ =>
          if ready then ret (VModule cls ready (update name v attrs))
          else raise (AttributeError "cannot assign parameters before Module.__init__() call")
      | VModule _ _ _ =>
          if ready then ret (VModule cls ready (update name v attrs))
          else raise (AttributeError "cannot assign module before Module.__init__() call")
      | VTensor _ =>
          match lookup name attrs with
          | Some (VParameter _) =>
              raise (TypeError "cannot assign 'torch.FloatTensor' as parameter (torch.nn.Parameter or None expected)")
          | Some (VModule _ _ _) =>
              raise (TypeError "cannot assign 'torch.FloatTensor' as child module (torch.nn.Module or None expected)")
          | _ => ret (VModule cls ready (update name v attrs))
          end
      end
  | _ => raise (AttributeError name)
  end.

Definition getattr (self : value) (name : string) : M value :=
  match self with
  | VModule _ _ attrs =>
      match lookup name attrs with
      | Some v => ret v
      | None => raise (AttributeError name)
      end
  | _ => raise (AttributeError name)
  end.

Definition as_tensor (v : value) : M tensor :=
  match v with
  | VTensor t => ret t
  | VParameter t => ret t
  | VModule _ _ _ => raise (TypeError "expected a Tensor")
  end.

(** The entries of the tensor held in an attribute are overwritten. *)
Definition refill (self : value) (name : string) (t : tensor) : value :=
  match self with
  | VModule cls ready attrs =>
      match lookup name attrs with
      | Some (VParameter _) => VModule cls ready (update name (VParameter t) attrs)
      | Some (VTensor _) => VModule cls ready (update name (VTensor t) attrs)
      | _ => self
      end
  | _ => self
  end.

(** [init.xavier_uniform_(self.<name>)]. *)
Definition init_attr (self : value) (name : string) : M value :=
  v <- getattr self name ;;
  t <- as_tensor v ;;
  t' <- xavier_uniform_ t ;;
  ret (refill self name t').

(** Calling the module held in [self.tanh].  [nn.Module.__call__] reads the
    hooks that [nn.Module.__init__] sets up. *)
Definition call_tanh (m : value) (x : tensor) : M tensor :=
  match m with
  | VModule cls ready _ =>
      if negb ready then raise (AttributeError "_backward_hooks")
      else if String.eqb cls "Tanh"
      then torch_done "tanh" ;;;
           ret (mkTensor (shape x) (map tanh (data x)))
      else raise (TypeError "forward is not implemented")
  | _ => raise (TypeError "'Tensor' object is not callable")
  end.

(** ** TeacherWeightGroup *)

Definition set_network (teacher : option network) : M unit :=
  fun st => (Ok tt, mkState teacher (torch_log st) (rng st) (rng_next st)).

(** [TeacherWeightGroup.teacher_model.encoder] and [.decoder]. *)
Definition teacher_part (name : string) (sel : network -> list (string * tensor))
  : M (list (string * tensor)) :=
  fun st =>
    match teacher_model st with
    | Some net => (Ok (sel net), st)
    | None =>
        (Raise (AttributeError ("'NoneType' object has no attribute '" ++ name ++ "'")), st)
    end.

(** The loop over [named_parameters()]:
      [if class_name in instance_name: weight_instances.append(instance)].
    [class_name] is no local name of the function. *)
Fixpoint collect (params : list (string * tensor)) (weight_instances : list tensor)
  : M (list tensor) :=
  match params with
  | [] => ret weight_instances
  | (instance_name, instance) :: params' =>
      class_name <- load_global "class_name" ;;
      needle <- as_str class_name ;;
      if contains needle instance_name
      then collect params' (weight_instances ++ [instance])
      else collect params' weight_instances
  end.

(** [TeacherWeightGroup.generate_weight_group].  The parameters are
    [weight_class_name], [current_layer_index] and [num_student_layers]; the
    body reads [class_name], [layer_index] and [num_layers]. *)
Definition generate_weight_group (weight_class_name : string)
    (current_layer_index num_student_layers : Z) : M tensor :=
  ' (part, weight_class_name) <-
      match split_first "." weight_class_name with
      | Some p => ret p
      | None => raise (ValueError "not enough values to unpack (expected 2, got 1)")
      end ;;
  weight_instances <-
    (if String.eqb part "encoder"
     then params <- teacher_part "encoder" encoder ;; collect params []
     else if String.eqb part "decoder"
     then params <- teacher_part "decoder" decoder ;; collect params []
     else ret []) ;;
  weight_instances <- torch_stack weight_instances ;;
  let teacher_network_layers := Z.of_nat (hd 0 (shape weight_instances)) in
  layer_index <- load_global "layer_index" ;;
  num_layers <- load_global "num_layers" ;;
  num_layers <- as_int num_layers ;;
  chunk <- int_truediv teacher_network_layers num_layers ;;
  layer_index <- as_int layer_index ;;
  let start := (layer_index * chunk)%Z in
  layer_index <- load_global "layer_index" ;;
  layer_index <- as_int layer_index ;;
  num_layers <- load_global "num_layers" ;;
  num_layers <- as_int num_layers ;;
  chunk <- int_truediv teacher_network_layers num_layers ;;
  let end_ := ((layer_index + 1) * chunk)%Z in
  tensor_slice weight_instances start end_.

(** ** WeightGenerator and BiasGenerator *)

Definition unpack3 (s : list nat) : M (nat * nat * nat) :=
  match s with
  | [a; b; c] => ret (a, b, c)
  | [] | [_] | [_; _] => raise (ValueError "not enough values to unpack")
  | _ => raise (ValueError "too many values to unpack")
  end.

Definition unpack2 (s : list nat) : M (nat * nat) :=
  match s with
  | [a; b] => ret (a, b)
  | [] | [_] => raise (ValueError "not enough values to unpack")
  | _ => raise (ValueError "too many values to unpack")
  end.

(** [WeightGenerator.init_weights_]: [W_i] and [W_o] are read first; the
    constructor assigns neither (the assignments are commented out). *)
Definition WeightGenerator_init_weights_ (self : value) : M value :=
  self <- init_attr self "W_i" ;;
  self <- init_attr self "W_o" ;;
  init_attr self "W_l".

(** The body of [WeightGenerator.__init__] after the selection. *)
Definition WeightGenerator_init_with (self : value) (subset : tensor)
    (student_weight_in student_weight_out : Z) : M value :=
  self <- Module_setattr self "subset" (VTensor subset) ;;
  subset <- (v <- getattr self "subset" ;; as_tensor v) ;;
  ' (num_adjacent_layers, teacher_weight_out, teacher_weight_in) <-
      unpack3 (shape subset) ;;
  t <- torch_empty [1%Z; Z.of_nat num_adjacent_layers] ;;
  p <- nn_Parameter t ;;
  self <- Module_setattr self "W_l" p ;;
  t <- torch_ones [student_weight_out; student_weight_in] ;;
  p <- nn_Parameter t ;;
  self <- Module_setattr self "W" p ;;
  t <- torch_zeros [student_weight_out; student_weight_in] ;;
  p <- nn_Parameter t ;;
  self <- Module_setattr self "B" p ;;
  m <- nn_Tanh ;;
  self <- Module_setattr self "tanh" m ;;
  WeightGenerator_init_weights_ self.

(** [WeightGenerator.__init__]; [nn.Module.__init__] is not called. *)
Definition WeightGenerator__init__ (self : value) (weight_class_name : string)
    (current_layer_index num_student_layers : Z)
    (student_weight_in student_weight_out : Z) : M value :=
  subset <- generate_weight_group weight_class_name current_layer_index
              num_student_layers ;;
  WeightGenerator_init_with self subset student_weight_in student_weight_out.

(** [WeightGenerator(...)]: a new instance, then [__init__]. *)
Definition WeightGenerator (weight_class_name : string)
    (current_layer_index num_student_layers : Z)
    (student_weight_in student_weight_out : Z) : M value :=
  WeightGenerator__init__ (VModule "WeightGenerator" false [])
    weight_class_name current_layer_index num_student_layers
    student_weight_in student_weight_out.

(** [forward] of both generators:
      [student_param = multi_mode_dot(self.subset, modes=[0], matrix_or_vec_list=[self.W_l])]
      [return self.tanh(student_param.squeeze(0)) * self.W + self.B] *)
Definition Generator_forward (self : value) : M tensor :=
  subset <- (v <- getattr self "subset" ;; as_tensor v) ;;
  W_l <- (v <- getattr self "W_l" ;; as_tensor v) ;;
  student_param <- multi_mode_dot subset W_l ;;
  tanh_ <- getattr self "tanh" ;;
  squeezed <- squeeze0 student_param ;;
  activated <- call_tanh tanh_ squeezed ;;
  W <- (v <- getattr self "W" ;; as_tensor v) ;;
  scaled <- tensor_mul activated W ;;
  B <- (v <- getattr self "B" ;; as_tensor v) ;;
  tensor_add scaled B.

Definition WeightGenerator_forward (self : value) : M tensor :=
  Generator_forward self.

(** [BiasGenerator.init_weights_]: [W_o] is read first; the constructor does
    not assign it. *)
Definition BiasGenerator_init_weights_ (self : value) : M value :=
  self <- init_attr self "W_o" ;;
  init_attr self "W_l".

(** The body of [BiasGenerator.__init__] after the selection. *)
Definition BiasGenerator_init_with (self : value) (subset : tensor)
    (student_out_features : Z) : M value :=
  self <- Module_setattr self "subset" (VTensor subset) ;;
  subset <- (v <- getattr self "subset" ;; as_tensor v) ;;
  ' (num_adjacent_layers, teacher_out_features) <- unpack2 (shape subset) ;;
  t <- torch_empty [1%Z; Z.of_nat num_adjacent_layers] ;;
  p <- nn_Parameter t ;;
  self <- Module_setattr self "W_l" p ;;
  t <- torch_ones [student_out_features] ;;
  p <- nn_Parameter t ;;
  self <- Module_setattr self "W" p ;;
  t <- torch_zeros [student_out_features] ;;
  p <- nn_Parameter t ;;
  self <- Module_setattr self "B" p ;;
  m <- nn_Tanh ;;
  self <- Module_setattr self "tanh" m ;;
  BiasGenerator_init_weights_ self.

Definition BiasGenerator__init__ (self : value) (weight_class_name : string)
    (current_layer_index num_student_layers : Z)
    (student_out_features : Z) : M value :=
  subset <- generate_weight_group weight_class_name current_layer_index
              num_student_layers ;;
  BiasGenerator_init_with self subset student_out_features.

Definition BiasGenerator (weight_class_name : string)
    (current_layer_index num_student_layers : Z)
    (student_out_features : Z) : M value :=
  BiasGenerator__init__ (VModule "BiasGenerator" false [])
    weight_class_name current_layer_index num_student_layers
    student_out_features.

Definition BiasGenerator_forward (self : value) : M tensor :=
  Generator_forward self.

(** ** StudentLinear *)

(** Calling a generator held in an attribute: [nn.Module.__call__], then the
    [forward] of its class. *)
Definition call_generator (m : value) : M tensor :=
  match m with
  | VModule cls ready _ =>
      if negb ready then raise (AttributeError "_backward_hooks")
      else if String.eqb cls "WeightGenerator" then WeightGenerator_forward m
      else if String.eqb cls "BiasGenerator" then BiasGenerator_forward m
      else raise (TypeError "forward() takes 1 positional argument")
  | _ => raise (TypeError "'Tensor' object is not callable")
  end.

(** [StudentLinear.__init__]; [nn.Module.__init__] is not called. *)
Definition StudentLinear__init__ (self : value) (weight_class_name : string)
    (current_layer_index num_student_layers : Z)
    (in_features out_features : Z) : M value :=
  g <- WeightGenerator weight_class_name current_layer_index
         num_student_layers in_features out_features ;;
  self <- Module_setattr self "weight_generator" g ;;
  g <- BiasGenerator weight_class_name current_layer_index
         num_student_layers out_features ;;
  Module_setattr self "bias_generator" g.

Definition StudentLinear (weight_class_name : string)
    (current_layer_index num_student_layers : Z)
    (in_features out_features : Z) : M value :=
  StudentLinear__init__ (VModule "StudentLinear" false [])
    weight_class_name current_layer_index num_student_layers
    in_features out_features.

(** [StudentLinear.forward]. *)
Definition StudentLinear_forward (self : value) (inputs : tensor) : M tensor :=
  g <- getattr self "weight_generator" ;;
  student_weight <- call_generator g ;;
  g <- getattr self "bias_generator" ;;
  student_bias <- call_generator g ;;
  F_linear inputs student_weight student_bias.

(** ** Input checks of the student decoder and encoder *)

(** The tensors handed to a [forward], by their shapes. *)
Record forward_args : Type := mkArgs {
  input_ids : option (list nat);
  inputs_embeds : option (list nat);
  token_type_ids : option (list nat);
  position_ids : option (list nat);
  past_key_values : option (list (list nat * list nat));
  attention_mask : option (list nat)
}.

(** What the opening of [StudentDecoderModel.forward] computes. *)
Record decoder_prepared : Type := mkPrepared {
  input_shape : list nat;
  batch_size : nat;
  past_length : nat;
  position_shape : list nat;
  mask_shape : option (list nat)
}.

Definition msg_both : string :=
  "You cannot specify both input_ids and inputs_embeds at the same time".
Definition msg_neither : string :=
  "You have to specify either input_ids or inputs_embeds".
Definition msg_batch : string := "batch_size has to be defined and > 0".

(** Code that touches no state runs in the exception monad alone. *)
Definition obind {A B : Type} (r : outcome A) (k : A -> outcome B) : outcome B :=
  match r with
  | Ok a => k a
  | Raise e => Raise e
  end.

Notation "x <~ m ;; k" := (obind m (fun x => k))
  (at level 61, m at next level, right associativity) : py_scope.
Notation "' pat <~ m ;; k" := (obind m (fun x => match x with pat => k end))
  (at level 61, pat pattern, m at next level, right associativity) : py_scope.

(** [s[-1]] on a shape. *)
Definition last_dim (s : list nat) : outcome nat :=
  match rev s with
  | n :: _ => Ok n
  | [] => Raise (IndexError "tuple index out of range")
  end.

(** [s[0]] on a shape. *)
Definition first_dim (s : list nat) : outcome nat :=
  match s with
  | n :: _ => Ok n
  | [] => Raise (IndexError "tuple index out of range")
  end.

(** [t.view(-1, n)] and [t.view(n, -1)] on a tensor of [k] entries: the
    other size is inferred. *)
Definition view_infer (k n : nat) : outcome nat :=
  if n =? 0
  then Raise (RuntimeError "cannot reshape tensor: the unspecified dimension size -1 is ambiguous or invalid")
  else if k mod n =? 0 then Ok (k / n)
  else Raise (RuntimeError "shape is invalid for input size").

(** [past_key_values[0][0].size(-2)]. *)
Definition past_size (past : list (list nat * list nat)) : outcome nat :=
  match past with
  | [] => Raise (IndexError "tuple index out of range")
  | (key, _) :: _ =>
      match rev key with
      | _ :: n :: _ => Ok n
      | _ => Raise (IndexError "Dimension out of range")
      end
  end.

(** [StudentDecoderModel.forward] up to the attention mask (the checks of
    the inputs and of the batch size). *)
Definition StudentDecoderModel_forward_inputs (a : forward_args)
  : outcome decoder_prepared :=
  ' (input_shape, batch_size) <~
      match input_ids a, inputs_embeds a with
      | Some _, Some _ => Raise (ValueError msg_both)
      | Some s, None =>
          n <~ last_dim s ;;
          rows <~ view_infer (numel s) n ;;
          Ok (s, rows)
      | None, Some s =>
          b <~ first_dim s ;;
          Ok (removelast s, b)
      | None, None => Raise (ValueError msg_neither)
      end ;;
  _ <~ match token_type_ids a with
       | Some s => n <~ last_dim input_shape ;; view_infer (numel s) n
       | None => Ok 0
       end ;;
  position_ids <~
      match position_ids a with
      | Some s =>
          n <~ last_dim input_shape ;;
          rows <~ view_infer (numel s) n ;;
          Ok (Some [rows; n])
      | None => Ok None
      end ;;
  past_length <~
      match past_key_values a with
      | None => Ok 0
      | Some past => past_size past
      end ;;
  position_shape <~
      match position_ids with
      | Some s => Ok s
      | None =>
          n <~ last_dim input_shape ;;
          rows <~ view_infer n n ;;
          Ok [rows; n]
      end ;;
  mask_shape <~
      match attention_mask a with
      | Some s =>
          if batch_size <=? 0 then Raise (ValueError msg_batch)
          else cols <~ view_infer (numel s) batch_size ;;
               Ok (Some [batch_size; 1; 1; cols])
      | None => Ok None
      end ;;
  Ok (mkPrepared input_shape batch_size past_length position_shape mask_shape).

(** [StudentDecoderModel.forward]: the checks, then the embeddings, the
    blocks and the assembly of the outputs, [rest]. *)
Definition StudentDecoderModel_forward {O : Type}
    (rest : decoder_prepared -> outcome O) (a : forward_args) : outcome O :=
  obind (StudentDecoderModel_forward_inputs a) rest.

(** What the opening of [StudentEncoderModel.forward] computes. *)
Record encoder_prepared : Type := mkEncPrepared {
  enc_batch_size : nat;
  enc_seq_length : nat;
  enc_past_length : nat
}.

(** [past_key_values[0][0].shape[2]]. *)
Definition past_shape2 (past : list (list nat * list nat)) : outcome nat :=
  match past with
  | [] => Raise (IndexError "tuple index out of range")
  | (key, _) :: _ =>
      match key with
      | _ :: _ :: n :: _ => Ok n
      | _ => Raise (IndexError "tuple index out of range")
      end
  end.

(** [StudentEncoderModel.forward] up to the length of the past. *)
Definition StudentEncoderModel_forward_inputs (a : forward_args)
  : outcome encoder_prepared :=
  input_shape <~
      match input_ids a, inputs_embeds a with
      | Some s, _ => Ok s
      | None, Some s => Ok (removelast s)
      | None, None => Raise (ValueError msg_neither)
      end ;;
  ' (batch_size, seq_length) <~
      match input_shape with
      | [b; l] => Ok (b, l)
      | [] | [_] => Raise (ValueError "not enough values to unpack (expected 2)")
      | _ => Raise (ValueError "too many values to unpack (expected 2)")
      end ;;
  past_key_values_length <~
      match past_key_values a with
      | Some past => past_shape2 past
      | None => Ok 0
      end ;;
  Ok (mkEncPrepared batch_size seq_length past_key_values_length).

Definition StudentEncoderModel_forward {O : Type}
    (rest : encoder_prepared -> outcome O) (a : forward_args) : outcome O :=
  obind (StudentEncoderModel_forward_inputs a) rest.

(** The errors of the input contract: the [ValueError]s that the two
    [forward]s raise themselves. *)
Definition input_contract_error (e : exn) : bool :=
  match e with
  | ValueError m =>
      String.eqb m msg_both || String.eqb m msg_neither || String.eqb m msg_batch
  | _ => false
  end.

(** ** Inputs of a generation step *)

(** A two-dimensional tensor of integers [(batch, seq_len)]. *)
Record ids : Type := mkIds { seq_len : nat; rows : list (list Z) }.

Definition ids_wf (t : ids) : Prop :=
  Forall (fun r => length r = seq_len t) (rows t).

Definition ids_shape (t : ids) : nat * nat := (length (rows t), seq_len t).

(** [t[:, -1:]]. *)
Definition last_column_slice (t : ids) : ids :=
  mkIds (Nat.min 1 (seq_len t))
        (map (fun r => skipn (length r - 1) r) (rows t)).

(** [t[:, -1].unsqueeze(-1)]. *)
Definition last_column (t : ids) : outcome ids :=
  if seq_len t =? 0
  then Raise (IndexError "index -1 is out of bounds for dimension 1 with size 0")
  else Ok (mkIds 1 (map (fun r => [last r 0%Z]) (rows t))).

(** Truth value of [past]: [None] and the empty tuple are false. *)
Definition truthy {K : Type} (past : option (list K)) : bool :=
  match past with
  | Some (_ :: _) => true
  | _ => false
  end.

Fixpoint cumsum (acc : Z) (r : list Z) : list Z :=
  match r with
  | [] => []
  | x :: r' => (acc + x)%Z :: cumsum (acc + x)%Z r'
  end.

(** [attention_mask.long().cumsum(-1) - 1], then [masked_fill_] with 1 where
    the mask is 0. *)
Definition positions_of_mask (mask : ids) : ids :=
  mkIds (seq_len mask)
    (map (fun r =>
            map2 (fun m p => if (m =? 0)%Z then 1%Z else (p - 1)%Z)
                 r (cumsum 0%Z r))
         (rows mask)).

Record student_generation_inputs (K : Type) : Type := mkStudentInputs {
  sg_input_ids : ids;
  sg_past_key_values : option (list K);
  sg_use_cache : option bool;
  sg_position_ids : option ids
}.
Arguments mkStudentInputs {K}.
Arguments sg_input_ids {K}.
Arguments sg_past_key_values {K}.
Arguments sg_use_cache {K}.
Arguments sg_position_ids {K}.

(** [StudentDecoderLMHeadModel.prepare_inputs_for_generation]; the keyword
    arguments read are [token_type_ids], [attention_mask], [position_ids]
    and [use_cache]. *)
Definition Student_prepare_inputs_for_generation {K : Type}
    (input_ids : ids) (past : option (list K))
    (kw_token_type_ids kw_attention_mask kw_position_ids : option ids)
    (kw_use_cache : option bool) : outcome (student_generation_inputs K) :=
  input_ids <~
      (if truthy past
       then input_ids <~ last_column input_ids ;;
            _ <~ match kw_token_type_ids with
                 | Some t => t <~ last_column t ;; Ok (Some t)
                 | None => Ok None
                 end ;;
            Ok input_ids
       else Ok input_ids) ;;
  position_ids <~
      match kw_attention_mask, kw_position_ids with
      | Some mask, None =>
          let position_ids := positions_of_mask mask in
          if truthy past
          then p <~ last_column position_ids ;; Ok (Some p)
          else Ok (Some position_ids)
      | _, _ => Ok None
      end ;;
  Ok (mkStudentInputs input_ids past kw_use_cache position_ids).

(** ** GrafomerModel *)

(** The outputs of a pretrained network: the hidden state at index 0, then
    the others. *)
Definition outputs (T : Type) : Type := (T * list T)%type.

(** A layer of the bridge, as [BartEncoderLayer] and [BartDecoderLayer] are
    called: the result is [outputs[0]]. *)
Definition encoder_layer (T : Type) : Type :=
  T -> T -> option T -> option bool -> outcome T.
Definition decoder_layer (T : Type) : Type :=
  T -> T -> T -> T -> option T -> option T -> option bool -> bool -> outcome T.

(** [GraftAttentionModule]: its layers and its two poolers. *)
Record GraftAttentionModule (T : Type) : Type := mkGraft {
  graft_encoder : list (encoder_layer T);
  graft_decoder : list (decoder_layer T);
  graft_input_pooler : T -> outcome T;
  graft_output_pooler : T -> outcome T
}.
Arguments graft_encoder {T}.
Arguments graft_decoder {T}.
Arguments graft_input_pooler {T}.
Arguments graft_output_pooler {T}.

(** [head_mask[idx] if head_mask is not None else None]. *)
Definition mask_at {T : Type} (head_mask : option (list T)) (idx : nat)
  : outcome (option T) :=
  match head_mask with
  | None => Ok None
  | Some l =>
      match nth_error l idx with
      | Some m => Ok (Some m)
      | None => Raise (IndexError "index out of range")
      end
  end.

Fixpoint run_graft_encoder {T : Type} (layers : list (encoder_layer T))
    (idx : nat) (encoder_hidden_states encoder_attention_mask : T)
    (head_mask : option (list T)) (output_attentions : option bool)
  : outcome T :=
  match layers with
  | [] => Ok encoder_hidden_states
  | layer :: layers' =>
      m <~ mask_at head_mask idx ;;
      h <~ layer encoder_hidden_states encoder_attention_mask m
             output_attentions ;;
      run_graft_encoder layers' (S idx) h encoder_attention_mask head_mask
        output_attentions
  end.

Fixpoint run_graft_decoder {T : Type} (layers : list (decoder_layer T))
    (idx : nat)
    (decoder_hidden_states decoder_attention_mask encoder_hidden_states
       cross_attention_mask : T)
    (head_mask cross_attn_head_mask : option (list T))
    (output_attentions : option bool) (use_cache : bool) : outcome T :=
  match layers with
  | [] => Ok decoder_hidden_states
  | layer :: layers' =>
      m <~ mask_at head_mask idx ;;
      c <~ mask_at cross_attn_head_mask idx ;;
      h <~ layer decoder_hidden_states decoder_attention_mask
             encoder_hidden_states cross_attention_mask m c
             output_attentions use_cache ;;
      run_graft_decoder layers' (S idx) h decoder_attention_mask
        encoder_hidden_states cross_attention_mask head_mask
        cross_attn_head_mask output_attentions use_cache
  end.

(** [GraftAttentionModule.forward]. *)
Definition GraftAttentionModule_forward {T : Type}
    (self : GraftAttentionModule T)
    (encoder_hidden_states encoder_attention_mask decoder_hidden_states
       decoder_attention_mask cross_attention_mask : T)
    (output_attentions : option bool)
    (cross_attn_head_mask : option (list T)) (use_cache : bool)
    (head_mask : option (list T)) : outcome T :=
  decoder_hidden_states <~ graft_input_pooler self decoder_hidden_states ;;
  encoder_hidden_states <~
      run_graft_encoder (graft_encoder self) 0 encoder_hidden_states
        encoder_attention_mask head_mask output_attentions ;;
  decoder_hidden_states <~
      run_graft_decoder (graft_decoder self) 0 decoder_hidden_states
        decoder_attention_mask encoder_hidden_states cross_attention_mask
        head_mask cross_attn_head_mask output_attentions use_cache ;;
  graft_output_pooler self decoder_hidden_states.

(** [GrafomerModel]: the pretrained encoder, the body and the head of the
    pretrained decoder, the bridge, and the tensor operations that
    [forward] uses ([shape_of], [tensor_plus], the two mask helpers of
    transformers). *)
Record GrafomerModel (T : Type) : Type := mkGrafomer {
  gm_encoder :
    option T -> option T -> option T -> option T ->
    option bool -> option bool -> option bool -> outcome (outputs T);
  decoder_body : option T -> option T -> option bool -> outcome (outputs T);
  decoder_head : T -> outcome T;
  graft_module : GraftAttentionModule T;
  shape_of : T -> list nat;
  tensor_plus : T -> T -> outcome T;
  _expand_mask : option T -> option nat -> outcome T;
  _make_causal_mask : list nat -> outcome T
}.
Arguments gm_encoder {T}.
Arguments decoder_body {T}.
Arguments decoder_head {T}.
Arguments graft_module {T}.
Arguments shape_of {T}.
Arguments tensor_plus {T}.
Arguments _expand_mask {T}.
Arguments _make_causal_mask {T}.

Record Seq2SeqLMOutput (T : Type) : Type := mkOutput { logits : T }.
Arguments mkOutput {T}.
Arguments logits {T}.

Record grafomer_args (T : Type) : Type := mkGrafomerArgs {
  g_input_ids : option T;
  g_attention_mask : option T;
  g_decoder_input_ids : option T;
  g_decoder_attention_mask : option T;
  g_head_mask : option T;
  g_encoder_outputs : option (outputs T);
  g_inputs_embeds : option T;
  g_use_cache : option bool;
  g_output_attentions : option bool;
  g_output_hidden_states : option bool;
  g_return_dict : option bool
}.
Arguments g_input_ids {T}.
Arguments g_attention_mask {T}.
Arguments g_decoder_input_ids {T}.
Arguments g_decoder_attention_mask {T}.
Arguments g_head_mask {T}.
Arguments g_encoder_outputs {T}.
Arguments g_inputs_embeds {T}.
Arguments g_use_cache {T}.
Arguments g_output_attentions {T}.
Arguments g_output_hidden_states {T}.
Arguments g_return_dict {T}.

Definition shape_attr {T : Type} (self : GrafomerModel T) (t : option T)
  : outcome (list nat) :=
  match t with
  | Some x => Ok (shape_of self x)
  | None => Raise (AttributeError "'NoneType' object has no attribute 'shape'")
  end.

(** What [GrafomerModel.forward] holds when it reaches the bridge: the
    outputs of the encoder and of the decoder body, and the three masks. *)
Record grafomer_stage (T : Type) : Type := mkStage {
  st_encoder_outputs : outputs T;
  st_decoder_outputs : outputs T;
  st_mask : T;
  st_dec_mask : T;
  st_cross_mask : T
}.
Arguments mkStage {T}.
Arguments st_encoder_outputs {T}.
Arguments st_decoder_outputs {T}.
Arguments st_mask {T}.
Arguments st_dec_mask {T}.
Arguments st_cross_mask {T}.

(** [GrafomerModel.forward] up to the bridge: the encoder, then the branch
    on [decoder_input_ids]. *)
Definition GrafomerModel_forward_stage {T : Type} (self : GrafomerModel T)
    (a : grafomer_args T) : outcome (grafomer_stage T) :=
  encoder_outputs <~
      match g_encoder_outputs a with
      | Some o => Ok o
      | None =>
          gm_encoder self (g_input_ids a) (g_attention_mask a) (g_head_mask a)
            (g_inputs_embeds a) (g_output_attentions a)
            (g_output_hidden_states a) (g_return_dict a)
      end ;;
  match g_decoder_input_ids a with
  | Some decoder_input_ids =>
      decoder_outputs <~
          decoder_body self (Some decoder_input_ids)
            (g_decoder_attention_mask a) (g_use_cache a) ;;
      mask <~ _expand_mask self (g_attention_mask a) None ;;
      s <~ shape_attr self (g_decoder_attention_mask a) ;;
      causal <~ _make_causal_mask self s ;;
      padding <~ _expand_mask self (g_decoder_attention_mask a) None ;;
      dec_mask <~ tensor_plus self causal padding ;;
      tgt_len <~ match shape_of self decoder_input_ids with
                 | _ :: l :: _ => Ok l
                 | _ => Raise (IndexError "tuple index out of range")
                 end ;;
      cross_mask <~ _expand_mask self (g_attention_mask a) (Some tgt_len) ;;
      Ok (mkStage encoder_outputs decoder_outputs mask dec_mask cross_mask)
  | None =>
      decoder_outputs <~ decoder_body self (g_input_ids a) None (g_use_cache a) ;;
      s <~ shape_attr self (g_input_ids a) ;;
      ' (bsz, sql) <~ match s with
                      | [b; l] => Ok (b, l)
                      | [] | [_] => Raise (ValueError "not enough values to unpack (expected 2)")
                      | _ => Raise (ValueError "too many values to unpack (expected 2)")
                      end ;;
      mask <~ _expand_mask self (g_attention_mask a) None ;;
      dec_mask <~ _make_causal_mask self [bsz; sql] ;;
      cross_mask <~ _expand_mask self (g_attention_mask a) (Some sql) ;;
      Ok (mkStage encoder_outputs decoder_outputs mask dec_mask cross_mask)
  end.

(** The bridge on what the stage holds. *)
Definition bridge_output {T : Type} (self : GrafomerModel T)
    (a : grafomer_args T) (s : grafomer_stage T) : outcome T :=
  GraftAttentionModule_forward (graft_module self)
    (fst (st_encoder_outputs s)) (st_mask s)
    (fst (st_decoder_outputs s)) (st_dec_mask s) (st_cross_mask s)
    (g_output_attentions a) None false None.

(** [GrafomerModel.forward]. *)
Definition GrafomerModel_forward {T : Type} (self : GrafomerModel T)
    (a : grafomer_args T) : outcome (Seq2SeqLMOutput T) :=
  s <~ GrafomerModel_forward_stage self a ;;
  let encoder_hidden_state := fst (st_encoder_outputs s) in
  let decoder_hidden_state := fst (st_decoder_outputs s) in
  graformer_hidden_state <~ bridge_output self a s ;;
  output_hidden_states <~
      tensor_plus self decoder_hidden_state graformer_hidden_state ;;
  output_hidden_states <~ decoder_head self output_hidden_states ;;
  Ok (mkOutput output_hidden_states).

Record grafomer_generation_inputs (T K : Type) : Type := mkGrafomerInputs {
  gi_input_ids : option ids;
  gi_encoder_outputs : option (outputs T);
  gi_past_key_values : option (list K);
  gi_decoder_input_ids : ids;
  gi_attention_mask : option T;
  gi_head_mask : option T;
  gi_decoder_head_mask : option T;
  gi_cross_attn_head_mask : option T;
  gi_use_cache : option bool
}.
Arguments mkGrafomerInputs {T K}.
Arguments gi_input_ids {T K}.
Arguments gi_past_key_values {T K}.
Arguments gi_decoder_input_ids {T K}.
Arguments gi_encoder_outputs {T K}.
Arguments gi_use_cache {T K}.

(** [GrafomerModel.prepare_inputs_for_generation]. *)
Definition GrafomerModel_prepare_inputs_for_generation {T K : Type}
    (decoder_input_ids : ids) (past : option (list K))
    (attention_mask head_mask decoder_head_mask cross_attn_head_mask : option T)
    (use_cache : option bool) (encoder_outputs : option (outputs T))
  : grafomer_generation_inputs T K :=
  let decoder_input_ids :=
    match past with
    | Some _ => last_column_slice decoder_input_ids
    | None => decoder_input_ids
    end in
  mkGrafomerInputs None encoder_outputs past decoder_input_ids attention_mask
    head_mask decoder_head_mask cross_attn_head_mask use_cache.

(** ** Notions of the statements *)

(** The exceptions with which the selection and the constructors answer to
    a configuration: the teacher reference that is [None], the stack of an
    empty or a ragged list, the division by a layer count of zero, a role
    without a dot, a group of the wrong rank.  A [NameError] is a name that
    the code itself leaves unbound; it is none of them. *)
Definition configuration_error (e : exn) : bool :=
  match e with
  | AttributeError what =>
      String.eqb what "'NoneType' object has no attribute 'encoder'"
      || String.eqb what "'NoneType' object has no attribute 'decoder'"
  | RuntimeError _ => true
  | ZeroDivisionError => true
  | ValueError _ => true
  | _ => false
  end.

(** The outcome of [m] does not depend on the state in which it runs. *)
Definition state_free {A : Type} (m : M A) : Prop :=
  forall st1 st2, fst (m st1) = fst (m st2).

(** The attribute [name] of [self] holds the tensor [t]. *)
Definition holds (self : value) (name : string) (t : tensor) : Prop :=
  match self with
  | VModule _ _ attrs =>
      lookup name attrs = Some (VTensor t)
      \/ lookup name attrs = Some (VParameter t)
  | _ => False
  end.

(** The same call of a [forward] without the attention mask. *)
Definition without_mask (a : forward_args) : forward_args :=
  mkArgs (input_ids a) (inputs_embeds a) (token_type_ids a) (position_ids a)
         (past_key_values a) None.

Definition supplied {A : Type} (x : option A) : bool :=
  match x with Some _ => true | None => false end.

(** An optional tensor that has at least one column when it is there. *)
Definition some_column (t : option ids) : Prop :=
  match t with
  | Some x => 1 <= seq_len x
  | None => True
  end.

(** ** Concrete configurations *)

(** A teacher whose encoder has twelve layers, each with one query weight
    of shape [(2, 2)]; layer [k] holds the entries [k, 0, 0, k]. *)
Definition query_weight (k : nat) : string * tensor :=
  (("layer." ++ String (ascii_of_nat (48 + k / 10))
                 (String (ascii_of_nat (48 + k mod 10)) "")
     ++ ".attention.self.query.weight")%string,
   mkTensor [2; 2] [INR k; 0%R; 0%R; INR k]).

Definition teacher12 : network :=
  mkNetwork (map query_weight (seq 0 12)) [].

(** The state at start: a teacher registered or not, no call into the
    tensor runtime yet. *)
Definition state_of (teacher : option network) : pystate :=
  mkState teacher [] (fun _ => 0%R) 0.

Definition query_role : string := "encoder.attention.self.query".

Definition ones22 : tensor := mkTensor [2; 2] [1; 1; 1; 1]%R.
Definition zeros22 : tensor := mkTensor [2; 2] [0; 0; 0; 0]%R.

(** A generator whose group is three teacher tensors of shape [(2, 2)] and
    whose mixing vector is [(1, 3)]. *)
Definition sample_generator (cls : string) (W B : tensor) : value :=
  VModule cls true
    [ ("subset", VTensor (mkTensor [3; 2; 2]
                   [1; 0; 0; 1; 0; 2; 2; 0; 3; 3; 3; 3]%R));
      ("W_l", VParameter (mkTensor [1; 3] [1; 1; 1]%R));
      ("W", VParameter W);
      ("B", VParameter B);
      ("tanh", VModule "Tanh" true []) ].

(** A bias generator over three teacher biases of shape [(2,)]. *)
Definition sample_bias_generator : value :=
  VModule "BiasGenerator" true
    [ ("subset", VTensor (mkTensor [3; 2] [1; 0; 0; 2; 3; 3]%R));
      ("W_l", VParameter (mkTensor [1; 3] [1; 1; 1]%R));
      ("W", VParameter (mkTensor [2] [1; 1]%R));
      ("B", VParameter (mkTensor [2] [0; 0]%R));
      ("tanh", VModule "Tanh" true []) ].

Definition sample_linear : value :=
  VModule "StudentLinear" true
    [ ("weight_generator", sample_generator "WeightGenerator" ones22 zeros22);
      ("bias_generator", sample_bias_generator) ].

(** Token ids of shape [(0, 3)]: an empty batch. *)
Definition empty_batch : forward_args :=
  mkArgs (Some [0; 3]) None None None None None.

(** Token ids of a batch of two with three tokens each. *)
Definition sample_ids : ids := mkIds 3 [[5; 6; 7]; [8; 9; 10]]%Z.

(** A Grafomer model over the integers: the decoder body answers 10, the
    head doubles, the bridge has no layers and poolers that change
    nothing. *)
Definition sample_grafomer : GrafomerModel Z :=
  mkGrafomer Z
    (fun _ _ _ _ _ _ _ => Ok (1%Z, []))
    (fun _ _ _ => Ok (10%Z, []))
    (fun x => Ok (2 * x)%Z)
    (mkGraft Z [] [] (fun x => Ok x) (fun x => Ok x))
    (fun _ => [2; 4])
    (fun x y => Ok (x + y)%Z)
    (fun _ _ => Ok 0%Z)
    (fun _ => Ok 0%Z).

Definition sample_call : grafomer_args Z :=
  mkGrafomerArgs Z (Some 7%Z) (Some 1%Z) (Some 5%Z) (Some 1%Z) None None None
    None None None None.

(** * Further parts of the two files *)

(** ** The heads of the decoder attention *)

(** [t.view] with the sizes [new_shape], on a tensor laid out contiguously. *)
Definition tensor_view (t : tensor) (new_shape : list nat) : M tensor :=
  if numel new_shape =? numel (shape t)
  then torch_done "view" ;;; ret (mkTensor new_shape (data t))
  else raise (RuntimeError "shape is invalid for input size").

(** The columns of a grid of [ncols] columns, as rows. *)
Definition transpose {A : Type} (d : A) (ncols : nat) (rows : list (list A))
  : list (list A) :=
  map (fun j => map (fun r => nth j r d) rows) (seq 0 ncols).

(** The entries of a tensor [(b, s, h, d)] in the order of the axes
    [(b, h, s, d)]: in each of the [b] batch elements, the grid of [s] rows
    of [h] blocks of [d] entries is transposed. *)
Definition swap_axes (b s h d : nat) (x : list R) : list R :=
  flat_map
    (fun batch =>
       concat (map (@concat R)
                 (transpose [] h (map (chunks h d) (chunks s (h * d) batch)))))
    (chunks b (s * (h * d)) x).

(** [t.permute(0, 2, 1, 3)]: the entries in the order of the new axes. *)
Definition permute_0213 (t : tensor) : M tensor :=
  match shape t with
  | [b; s; h; d] =>
      torch_done "permute" ;;;
      ret (mkTensor [b; h; s; d] (swap_axes b s h d (data t)))
  | _ =>
      raise (RuntimeError "number of dimensions in the tensor input does not match the length of the desired ordering of dimensions")
  end.

(** [StudentDecoderAttention._split_heads]. *)
Definition _split_heads (t : tensor) (num_heads attn_head_size : nat)
  : M tensor :=
  let new_shape := removelast (shape t) ++ [num_heads; attn_head_size] in
  t <- tensor_view t new_shape ;;
  permute_0213 t.

(** [StudentDecoderAttention._merge_heads]. *)
Definition _merge_heads (t : tensor) (num_heads attn_head_size : nat)
  : M tensor :=
  t <- permute_0213 t ;;
  torch_done "contiguous" ;;;
  let new_shape :=
    removelast (removelast (shape t)) ++ [num_heads * attn_head_size] in
  tensor_view t new_shape.

(** ** The cache of a beam search *)

(** [t.index_select(0, index)] on a tensor of rank at least 1, seen as the
    list of its slices along the first axis. *)
Fixpoint index_select {A : Type} (slices : list A) (index : list Z)
  : outcome (list A) :=
  match index with
  | [] => Ok []
  | i :: index' =>
      if (i <? 0)%Z then Raise (IndexError "index out of range in self")
      else match nth_error slices (Z.to_nat i) with
           | Some x => rest <~ index_select slices index' ;; Ok (x :: rest)
           | None => Raise (IndexError "index out of range in self")
           end
  end.

(** [tuple(f(x) for x in l)]. *)
Fixpoint traverse {A B : Type} (f : A -> outcome B) (l : list A)
  : outcome (list B) :=
  match l with
  | [] => Ok []
  | x :: l' => y <~ f x ;; ys <~ traverse f l' ;; Ok (y :: ys)
  end.

(** [StudentDecoderLMHeadModel._reorder_cache]: [past] holds, per layer,
    the cached states. *)
Definition _reorder_cache {A : Type} (past : list (list (list A)))
    (beam_idx : list Z) : outcome (list (list (list A))) :=
  traverse
    (fun layer_past =>
       traverse (fun past_state => index_select past_state beam_idx)
                layer_past)
    past.

(** ** EncoderPooler *)

(** [t[:, 0]]. *)
Definition select_first (t : tensor) : M tensor :=
  match shape t with
  | b :: s :: rest =>
      if s =? 0
      then raise (IndexError "index 0 is out of bounds for dimension 1 with size 0")
      else torch_done "select" ;;;
           ret (mkTensor (b :: rest)
                  (flat_map (firstn (numel rest))
                     (chunks b (s * numel rest) (data t))))
  | _ => raise (IndexError "too many indices for tensor")
  end.

(** Calling an [nn.Linear]: [F.linear(input, self.weight, self.bias)]. *)
Definition call_Linear (m : value) (x : tensor) : M tensor :=
  match m with
  | VModule cls ready _ =>
      if negb ready then raise (AttributeError "_backward_hooks")
      else if String.eqb cls "Linear"
      then weight <- (v <- getattr m "weight" ;; as_tensor v) ;;
           bias <- (v <- getattr m "bias" ;; as_tensor v) ;;
           F_linear x weight bias
      else raise (TypeError "forward is not implemented")
  | _ => raise (TypeError "'Tensor' object is not callable")
  end.

(** [EncoderPooler.forward]. *)
Definition EncoderPooler_forward (self : value) (hidden_states : tensor)
  : M tensor :=
  first_token_tensor <- select_first hidden_states ;;
  dense <- getattr self "dense" ;;
  pooled_output <- call_Linear dense first_token_tensor ;;
  activation <- getattr self "activation" ;;
  call_tanh activation pooled_output.

(** ** StudentEncoder *)

(** A layer of the encoder as [StudentEncoder.forward] calls it, on
    [hidden_states], [attention_mask], [layer_head_mask],
    [encoder_hidden_states], [encoder_attention_mask], [past_key_value] and
    [output_attentions]: the tuple of its outputs. *)
Definition student_encoder_layer (V : Type) : Type :=
  V -> option V -> option V -> option V -> option V -> option V ->
  option bool -> outcome (list V).

(** [StudentEncoder]: [self.layer], the two flags that select the
    checkpointed call, and the read of [self.config.add_cross_attention]. *)
Record StudentEncoder (V : Type) : Type := mkStudentEncoder {
  se_layer : list (student_encoder_layer V);
  se_gradient_checkpointing : bool;
  se_training : bool;
  se_add_cross_attention : outcome bool
}.
Arguments mkStudentEncoder {V}.
Arguments se_layer {V}.
Arguments se_gradient_checkpointing {V}.
Arguments se_training {V}.
Arguments se_add_cross_attention {V}.

(** The local variables of [StudentEncoder.forward] that the loop over the
    layers assigns.  The first four tuples are [None] or a tuple;
    [all_cross_attentions] is a tuple or is not bound yet ([None] here). *)
Record encoder_locals (V : Type) : Type := mkLocals {
  l_hidden_states : V;
  l_use_cache : bool;
  l_all_hidden_states : option (list V);
  l_all_self_attentions : option (list V);
  l_next_decoder_cache : option (list V);
  l_all_cross_attentions : option (list V)
}.
Arguments mkLocals {V}.
Arguments l_hidden_states {V}.
Arguments l_use_cache {V}.
Arguments l_all_hidden_states {V}.
Arguments l_all_self_attentions {V}.
Arguments l_next_decoder_cache {V}.
Arguments l_all_cross_attentions {V}.

(** What [StudentEncoder.forward] returns: the tuple of the values that
    are not [None], or the model output. *)
Inductive StudentEncoder_outputs (V : Type) : Type :=
| OutTuple (items : list (V + list V))
| OutModel (last_hidden_state : V)
    (past_key_values hidden_states attentions cross_attentions
       : option (list V)).
Arguments OutTuple {V}.
Arguments OutModel {V}.

(** Truth value of a flag that is [None], [True] or [False]. *)
Definition istrue (flag : option bool) : bool :=
  match flag with
  | Some true => true
  | _ => false
  end.

(** [t[i]] on a tuple. *)
Definition item {V : Type} (t : list V) (i : nat) : outcome V :=
  match nth_error t i with
  | Some x => Ok x
  | None => Raise (IndexError "tuple index out of range")
  end.

(** [t + (x,)] where [t] is a tuple or [None]. *)
Definition tuple_add {V : Type} (t : option (list V)) (x : V)
  : outcome (option (list V)) :=
  match t with
  | Some l => Ok (Some (l ++ [x]))
  | None =>
      Raise (TypeError "unsupported operand type(s) for +: 'NoneType' and 'tuple'")
  end.

(** The read of a local variable ([UnboundLocalError] is a [NameError]). *)
Definition read_local {A : Type} (name : string) (v : option A) : outcome A :=
  match v with
  | Some x => Ok x
  | None =>
      Raise (NameError ("local variable '" ++ name
                        ++ "' referenced before assignment"))
  end.

(** The loop of [StudentEncoder.forward] over [enumerate(self.layer)]. *)
Fixpoint StudentEncoder_layers {V : Type} (self : StudentEncoder V)
    (layers : list (student_encoder_layer V)) (i : nat)
    (attention_mask : option V) (head_mask : option (list (option V)))
    (encoder_hidden_states encoder_attention_mask : option V)
    (past_key_values : option (list V))
    (output_attentions output_hidden_states : option bool)
    (loc : encoder_locals V) : outcome (encoder_locals V) :=
  match layers with
  | [] => Ok loc
  | layer_module :: layers' =>
      all_hidden_states <~
          (if istrue output_hidden_states
           then tuple_add (l_all_hidden_states loc) (l_hidden_states loc)
           else Ok (l_all_hidden_states loc)) ;;
      layer_head_mask <~
          match head_mask with
          | Some l => item l i
          | None => Ok None
          end ;;
      past_key_value <~ mask_at past_key_values i ;;
      let use_cache :=
        if se_gradient_checkpointing self && se_training self
        then false
        else l_use_cache loc in
      layer_outputs <~
          layer_module (l_hidden_states loc) attention_mask layer_head_mask
            encoder_hidden_states encoder_attention_mask past_key_value
            output_attentions ;;
      hidden_states <~ item layer_outputs 0 ;;
      next_decoder_cache <~
          (if use_cache
           then tuple_add (l_next_decoder_cache loc)
                  (last layer_outputs hidden_states)
           else Ok (l_next_decoder_cache loc)) ;;
      ' (all_self_attentions, all_cross_attentions) <~
          (if istrue output_attentions
           then attention <~ item layer_outputs 1 ;;
                all_self_attentions <~
                    tuple_add (l_all_self_attentions loc) attention ;;
                add_cross_attention <~ se_add_cross_attention self ;;
                if (add_cross_attention : bool)
                then all_cross_attentions <~
                         read_local "all_cross_attentions"
                           (l_all_cross_attentions loc) ;;
                     cross <~ item layer_outputs 2 ;;
                     Ok (all_self_attentions,
                         Some (all_cross_attentions ++ [cross]))
                else Ok (all_self_attentions, l_all_cross_attentions loc)
           else Ok (l_all_self_attentions loc, l_all_cross_attentions loc)) ;;
      StudentEncoder_layers self layers' (S i) attention_mask head_mask
        encoder_hidden_states encoder_attention_mask past_key_values
        output_attentions output_hidden_states
        (mkLocals hidden_states use_cache all_hidden_states
           all_self_attentions next_decoder_cache all_cross_attentions)
  end.

(** The values of a tuple display that are not [None]. *)
Definition not_None {V : Type} (t : option (list V)) : list (V + list V) :=
  match t with
  | Some l => [inr l]
  | None => []
  end.

(** [StudentEncoder.forward]. *)
Definition StudentEncoder_forward {V : Type} (self : StudentEncoder V)
    (hidden_states : V) (attention_mask : option V)
    (head_mask : option (list (option V)))
    (encoder_hidden_states encoder_attention_mask : option V)
    (past_key_values : option (list V))
    (use_cache output_attentions output_hidden_states return_dict
       : option bool) : outcome (StudentEncoder_outputs V) :=
  let all_hidden_states :=
    if istrue output_hidden_states then Some [] else None in
  let all_self_attentions :=
    if istrue output_attentions then Some [] else None in
  let next_decoder_cache := if istrue use_cache then Some [] else None in
  loc <~ StudentEncoder_layers self (se_layer self) 0 attention_mask head_mask
           encoder_hidden_states encoder_attention_mask past_key_values
           output_attentions output_hidden_states
           (mkLocals hidden_states (istrue use_cache) all_hidden_states
              all_self_attentions next_decoder_cache None) ;;
  all_hidden_states <~
      (if istrue output_hidden_states
       then tuple_add (l_all_hidden_states loc) (l_hidden_states loc)
       else Ok (l_all_hidden_states loc)) ;;
  if negb (istrue return_dict)
  then all_cross_attentions <~
           read_local "all_cross_attentions" (l_all_cross_attentions loc) ;;
       Ok (OutTuple
             (inl (l_hidden_states loc)
              :: not_None (l_next_decoder_cache loc)
              ++ not_None all_hidden_states
              ++ not_None (l_all_self_attentions loc)
              ++ [inr all_cross_attentions]))
  else all_cross_attentions <~
           read_local "all_cross_attentions" (l_all_cross_attentions loc) ;;
       Ok (OutModel (l_hidden_states loc) (l_next_decoder_cache loc)
             all_hidden_states (l_all_self_attentions loc)
             (Some all_cross_attentions)).

(** ** Notions of the further statements *)

(** The beams picked by [second] among the beams picked by [first]. *)
Definition compose_beams (first second : list Z) : list Z :=
  map (fun j => nth (Z.to_nat j) first 0%Z) second.

(** Every index of [index] is a slice of a state of [n] slices. *)
Definition beams_within (n : nat) (index : list Z) : Prop :=
  Forall (fun i => (0 <= i < Z.of_nat n)%Z) index.

(** The attribute [name] of [self] holds the module [m], an instance of
    [cls] on which [nn.Module.__init__] has run. *)
Definition holds_module (self : value) (name cls : string) (m : value)
  : Prop :=
  match self with
  | VModule _ _ attrs =>
      lookup name attrs = Some m /\ exists a, m = VModule cls true a
  | _ => False
  end.

(** A pooler as its constructor sets it up for a hidden size [n]: a dense
    layer with a weight [(n, n)] and a bias [(n,)], and the activation. *)
Record valid_pooler (self dense : value) (W b : tensor) (n : nat)
  : Prop := mkValidPooler {
  vp_dense : holds_module self "dense" "Linear" dense;
  vp_activation : exists act, holds_module self "activation" "Tanh" act;
  vp_weight : holds dense "weight" W;
  vp_bias : holds dense "bias" b;
  vp_weight_shape : shape W = [n; n];
  vp_bias_shape : shape b = [n];
  vp_weight_wf : wf W;
  vp_bias_wf : wf b
}.

(** A mask of zeros and ones, and the number of its ones in a row. *)
Definition binary_mask (mask : ids) : Prop :=
  Forall (Forall (fun m => m = 0%Z \/ m = 1%Z)) (rows mask).

Definition real_tokens (r : list Z) : nat := count_occ Z.eq_dec r 1%Z.

(** The call of [forward] with the dictionary that
    [GrafomerModel.prepare_inputs_for_generation] returns as keyword
    arguments, beside [output_attentions], [output_hidden_states] and
    [return_dict]: each key is bound to the parameter of [forward] of its
    name; [tensor_of] is the tensor of the token ids. *)
Definition forward_on_prepared {T K : Type} (tensor_of : ids -> T)
    (g : grafomer_generation_inputs T K)
    (output_attentions output_hidden_states return_dict : option bool)
  : grafomer_args T :=
  mkGrafomerArgs T
    (option_map tensor_of (gi_input_ids g))
    (gi_attention_mask T K g)
    (Some (tensor_of (gi_decoder_input_ids g)))
    None
    (gi_head_mask T K g)
    (gi_encoder_outputs g)
    None
    (gi_use_cache g)
    output_attentions output_hidden_states return_dict.

(** ** Further concrete configurations *)

(** A pooler of hidden size 2. *)
Definition sample_dense : value :=
  VModule "Linear" true
    [ ("weight", VParameter (mkTensor [2; 2] [1; 2; 3; 4]%R));
      ("bias", VParameter (mkTensor [2] [5; 6]%R)) ].

Definition sample_pooler : value :=
  VModule "EncoderPooler" true
    [ ("dense", sample_dense); ("activation", VModule "Tanh" true []) ].

(** Hidden states [(2, 2, 2)] and [(2, 1, 2)] with the same first tokens. *)
Definition sample_hidden : tensor :=
  mkTensor [2; 2; 2] [1; 2; 3; 4; 5; 6; 7; 8]%R.
Definition sample_hidden_short : tensor :=
  mkTensor [2; 1; 2] [1; 2; 5; 6]%R.

(** A mask [(2, 4)] of a batch padded on the left. *)
Definition sample_mask : ids := mkIds 4 [[0; 0; 1; 1]; [1; 1; 1; 1]]%Z.

(** A bridge over the integers with two encoder layers and one decoder
    layer that add their layer mask to the hidden state. *)
Definition sample_bridge : GraftAttentionModule Z :=
  mkGraft Z
    [ (fun h _ m _ => Ok (h + match m with Some x => x | None => 0 end)%Z);
      (fun h _ m _ => Ok (h + match m with Some x => x | None => 0 end)%Z) ]
    [ (fun h _ e _ m _ _ _ =>
         Ok (h + e + match m with Some x => x | None => 0 end)%Z) ]
    (fun x => Ok x) (fun x => Ok x).

(** An encoder over the integers with two layers that add one to the
    hidden state and return it alone. *)
Definition sample_encoder : StudentEncoder Z :=
  mkStudentEncoder
    [ (fun h _ _ _ _ _ _ => Ok [(h + 1)%Z]);
      (fun h _ _ _ _ _ _ => Ok [(h + 1)%Z]) ]
    false false (Ok false).

(** * Properties *)

(** ** The monad *)

Lemma bind_ok {A B : Type} (m : M A) (k : A -> M B) st a st' :
  m st = (Ok a, st') -> bind m k st = k a st'.
Proof. intros H. unfold bind. now rewrite H. Qed.

Lemma bind_raise {A B : Type} (m : M A) (k : A -> M B) st e st' :
  m st = (Raise e, st') -> bind m k st = (Raise e, st').
Proof. intros H. unfold bind. now rewrite H. Qed.

(** ** Unbound names *)

Lemma class_name_unbound : load_global "class_name" = raise (NameError "class_name").
Proof. reflexivity. Qed.

Lemma layer_index_unbound : load_global "layer_index" = raise (NameError "layer_index").
Proof. reflexivity. Qed.

Lemma num_layers_unbound : load_global "num_layers" = raise (NameError "num_layers").
Proof. reflexivity. Qed.

(** The loop raises at its first iteration, and appends nothing. *)
Lemma collect_cases params acc st :
  collect params acc st
  = match params with
    | [] => (Ok acc, st)
    | _ :: _ => (Raise (NameError "class_name"), st)
    end.
Proof.
  destruct params as [|[name t] params]; [reflexivity|].
  cbn [collect]. rewrite class_name_unbound. reflexivity.
Qed.

(** What the list handed to [torch.stack] can be: it is always empty. *)
Lemma collect_empty params st r st' :
  collect params [] st = (Ok r, st') -> r = [] /\ st' = st.
Proof.
  rewrite collect_cases. destruct params; intros H; inversion H; auto.
Qed.

(** ** The selection *)

(** The selection raises on every input, and leaves the state as it was:
    the exception is decided by the role and the registered teacher. *)
Lemma generate_weight_group_cases role i n st :
  generate_weight_group role i n st
  = (Raise
       match split_first "." role with
       | None => ValueError "not enough values to unpack (expected 2, got 1)"
       | Some (part, _) =>
           if String.eqb part "encoder" then
             match teacher_model st with
             | None => AttributeError "'NoneType' object has no attribute 'encoder'"
             | Some net =>
                 match encoder net with
                 | [] => RuntimeError "stack expects a non-empty TensorList"
                 | _ :: _ => NameError "class_name"
                 end
             end
           else if String.eqb part "decoder" then
             match teacher_model st with
             | None => AttributeError "'NoneType' object has no attribute 'decoder'"
             | Some net =>
                 match decoder net with
                 | [] => RuntimeError "stack expects a non-empty TensorList"
                 | _ :: _ => NameError "class_name"
                 end
             end
           else RuntimeError "stack expects a non-empty TensorList"
       end, st).
Proof.
  unfold generate_weight_group.
  destruct (split_first "." role) as [[part rest]|]; [|reflexivity].
  unfold bind at 1. cbn [ret].
  unfold bind at 1.
  destruct (String.eqb part "encoder").
  - unfold bind at 1, teacher_part.
    destruct (teacher_model st) as [net|]; [|reflexivity].
    rewrite collect_cases. destruct (encoder net); reflexivity.
  - destruct (String.eqb part "decoder").
    + unfold bind at 1, teacher_part.
      destruct (teacher_model st) as [net|]; [|reflexivity].
      rewrite collect_cases. destruct (decoder net); reflexivity.
    + reflexivity.
Qed.

Lemma generate_weight_group_raises role i n st :
  exists e, generate_weight_group role i n st = (Raise e, st).
Proof. rewrite generate_weight_group_cases. eauto. Qed.

(** The selection does not read the layer index and the layer count. *)
Lemma generate_weight_group_ignores_layers role i n i' n' st :
  generate_weight_group role i n st = generate_weight_group role i' n' st.
Proof. now rewrite !generate_weight_group_cases. Qed.

(** C1, at the configuration of the specification (twelve teacher layers,
    four student layers, role [encoder.attention.self.query]): the selection
    for the student layers 0 and 3 returns no slice; it raises [NameError]
    on [class_name], which the loop reads in place of the role.  The
    specification asks for the teacher tensors 0, 1, 2 and 9, 10, 11. *)
Theorem generate_weight_group_NameError :
  generate_weight_group query_role 0 4 (state_of (Some teacher12))
  = (Raise (NameError "class_name"), state_of (Some teacher12))
  /\ generate_weight_group query_role 3 4 (state_of (Some teacher12))
     = (Raise (NameError "class_name"), state_of (Some teacher12)).
Proof. split; rewrite generate_weight_group_cases; reflexivity. Qed.

(** C5, at the same configuration: for no student layer is there a
    selection, so there are no adjacent selections to be contiguous and
    nothing to concatenate to a prefix of the stacked teacher tensor. *)
Theorem generate_weight_group_no_selection :
  forall i : Z,
    fst (generate_weight_group query_role i 4 (state_of (Some teacher12)))
    = Raise (NameError "class_name").
Proof. intros i. rewrite generate_weight_group_cases. reflexivity. Qed.

(** The lines that the selection does not reach, run on the stacked teacher
    tensors with the parameters in the place of the unbound names: the chunk
    is 12 / 4 = 3, and the slice for the student layer 3 holds the teacher
    tensors 9, 10 and 11. *)
Example slice_of_stacked_teacher :
  fst ((t <- torch_stack (map snd (encoder teacher12)) ;;
        chunk <- int_truediv (Z.of_nat (hd 0 (shape t))) 4 ;;
        tensor_slice t (3 * chunk) ((3 + 1) * chunk))
         (state_of (Some teacher12)))
  = Ok (mkTensor [3; 2; 2]
          (concat (map (fun k => data (snd (query_weight k))) [9; 10; 11]))).
Proof. reflexivity. Qed.

(** ** The constructors *)

(** Runs the monadic code as far as it computes. *)
Ltac run :=
  cbv beta iota zeta delta
      [bind ret raise torch_done draw nn_Parameter nn_Tanh torch_empty
       torch_ones torch_zeros Module_setattr getattr as_tensor init_attr
       unpack3 unpack2 lookup update String.eqb Ascii.eqb Bool.eqb
       fst snd raised negb].

Lemma dims_of_nat (k : nat) st :
  dims_of [1%Z; Z.of_nat k] st = (Ok [1; k], st).
Proof.
  unfold dims_of. cbn [forallb].
  replace (0 <=? Z.of_nat k)%Z with true by (symmetry; apply Z.leb_le; lia).
  cbn. now rewrite Nat2Z.id.
Qed.

(** Whatever group the selection might hand over, the rest of the
    constructor raises: on an object on which [nn.Module.__init__] has not
    run the first parameter cannot be assigned, and on any object
    [init_weights_] reads [W_i], which nothing assigns. *)
Lemma WeightGenerator_init_with_raises ready subset d_in d_out st :
  raised (fst (WeightGenerator_init_with (VModule "WeightGenerator" ready [])
                 subset d_in d_out st)) = true.
Proof.
  unfold WeightGenerator_init_with, WeightGenerator_init_weights_. run.
  destruct (shape subset) as [|a [|b [|c [|d s]]]]; run; try reflexivity.
  rewrite dims_of_nat. run.
  destruct ready; run; [|reflexivity].
  unfold dims_of.
  destruct (forallb _ [d_out; d_in]); run; reflexivity.
Qed.

Lemma BiasGenerator_init_with_raises ready subset d_out st :
  raised (fst (BiasGenerator_init_with (VModule "BiasGenerator" ready [])
                 subset d_out st)) = true.
Proof.
  unfold BiasGenerator_init_with, BiasGenerator_init_weights_. run.
  destruct (shape subset) as [|a [|b [|c s]]]; run; try reflexivity.
  rewrite dims_of_nat. run.
  destruct ready; run; [|reflexivity].
  unfold dims_of.
  destruct (forallb _ [d_out]); run; reflexivity.
Qed.

(** A constructor raises what the selection raises. *)
Lemma WeightGenerator_selection role i n d_in d_out st e :
  generate_weight_group role i n st = (Raise e, st) ->
  WeightGenerator role i n d_in d_out st = (Raise e, st).
Proof. intros H. apply (bind_raise _ _ _ _ _ H). Qed.

Lemma BiasGenerator_selection role i n d_out st e :
  generate_weight_group role i n st = (Raise e, st) ->
  BiasGenerator role i n d_out st = (Raise e, st).
Proof. intros H. apply (bind_raise _ _ _ _ _ H). Qed.

Lemma StudentLinear_selection role i n d_in d_out st e :
  generate_weight_group role i n st = (Raise e, st) ->
  StudentLinear role i n d_in d_out st = (Raise e, st).
Proof.
  intros H. apply bind_raise. now apply WeightGenerator_selection.
Qed.

(** C10: no call of a constructor returns.  [WeightGenerator(...)],
    [BiasGenerator(...)] and [StudentLinear(...)] raise for every argument
    tuple and in every state; and the body of either generator constructor
    raises on every group it could be given, whether or not
    [nn.Module.__init__] has run on the object. *)
Theorem constructors_always_raise (role : string) (i n d_in d_out : Z)
    (st : pystate) :
  (exists e, WeightGenerator role i n d_in d_out st = (Raise e, st))
  /\ (exists e, BiasGenerator role i n d_out st = (Raise e, st))
  /\ (exists e, StudentLinear role i n d_in d_out st = (Raise e, st))
  /\ (forall ready subset,
        raised (fst (WeightGenerator_init_with
                       (VModule "WeightGenerator" ready []) subset
                       d_in d_out st)) = true)
  /\ (forall ready subset,
        raised (fst (BiasGenerator_init_with
                       (VModule "BiasGenerator" ready []) subset
                       d_out st)) = true).
Proof.
  destruct (generate_weight_group_raises role i n st) as [e He].
  repeat split.
  - exists e. now apply WeightGenerator_selection.
  - exists e. now apply BiasGenerator_selection.
  - exists e. now apply StudentLinear_selection.
  - intros. apply WeightGenerator_init_with_raises.
  - intros. apply BiasGenerator_init_with_raises.
Qed.

(** The two defects of the constructor body, one by one. *)
Lemma parameter_before_Module_init cls attrs name t st :
  Module_setattr (VModule cls false attrs) name (VParameter t) st
  = (Raise (AttributeError "cannot assign parameters before Module.__init__() call"), st).
Proof. reflexivity. Qed.

Lemma init_weights_reads_W_i cls ready attrs st :
  lookup "W_i" attrs = None ->
  WeightGenerator_init_weights_ (VModule cls ready attrs) st
  = (Raise (AttributeError "W_i"), st).
Proof.
  intros H. unfold WeightGenerator_init_weights_, init_attr, bind, getattr.
  now rewrite H.
Qed.

Lemma init_weights_reads_W_o cls ready attrs st :
  lookup "W_o" attrs = None ->
  BiasGenerator_init_weights_ (VModule cls ready attrs) st
  = (Raise (AttributeError "W_o"), st).
Proof.
  intros H. unfold BiasGenerator_init_weights_, init_attr, bind, getattr.
  now rewrite H.
Qed.

(** ** Lists and shapes *)

Lemma map2_length {A B C : Type} (f : A -> B -> C) l1 l2 :
  length (map2 f l1 l2) = Nat.min (length l1) (length l2).
Proof.
  revert l2. induction l1 as [|a l1 IH]; intros [|b l2]; cbn; auto.
Qed.

Lemma nth_map2 {A B C : Type} (f : A -> B -> C) l1 l2 j d1 d2 d :
  j < length l1 -> j < length l2 ->
  nth j (map2 f l1 l2) d = f (nth j l1 d1) (nth j l2 d2).
Proof.
  revert l2 j. induction l1 as [|a l1 IH]; intros [|b l2] [|j] H1 H2;
    cbn in *; try lia; auto.
  apply IH; lia.
Qed.

Lemma chunks_all_length n size d :
  length d = n * size ->
  Forall (fun c => length c = size) (chunks n size d).
Proof.
  revert d. induction n as [|n IH]; intros d H; cbn [chunks]; constructor.
  - rewrite length_firstn. cbn in H. lia.
  - apply IH. rewrite length_skipn. cbn in H. lia.
Qed.

Lemma concat_chunks n size d :
  length d = n * size -> concat (chunks n size d) = d.
Proof.
  revert d. induction n as [|n IH]; intros d H; cbn [chunks concat].
  - destruct d; [reflexivity | discriminate].
  - rewrite IH by (rewrite length_skipn; cbn in H; lia).
    apply firstn_skipn.
Qed.

(** ** Attributes *)

Lemma get_tensor self name t st :
  holds self name t ->
  (v <- getattr self name ;; as_tensor v) st = (Ok t, st).
Proof.
  destruct self as [| |cls ready attrs]; cbn [holds]; try tauto.
  unfold bind, getattr. intros [H|H]; rewrite H; reflexivity.
Qed.

(** ** The contraction and [forward] of the generators *)








(** ** Construction and the configuration *)

(** The part of the configuration that the selection reads before its
    loop: without a registered teacher, a construction for a role in the
    encoder or in the decoder raises [AttributeError] on the teacher
    reference, in the state in which it started. *)
Lemma unregistered_teacher_AttributeError (path : string) (i n d_in d_out : Z)
    (st : pystate) :
  teacher_model st = None ->
  WeightGenerator ("encoder." ++ path) i n d_in d_out st
  = (Raise (AttributeError "'NoneType' object has no attribute 'encoder'"), st)
  /\ WeightGenerator ("decoder." ++ path) i n d_in d_out st
     = (Raise (AttributeError "'NoneType' object has no attribute 'decoder'"), st)
  /\ BiasGenerator ("encoder." ++ path) i n d_out st
     = (Raise (AttributeError "'NoneType' object has no attribute 'encoder'"), st)
  /\ BiasGenerator ("decoder." ++ path) i n d_out st
     = (Raise (AttributeError "'NoneType' object has no attribute 'decoder'"), st).
Proof.
  intros Hnone.
  repeat split;
    (apply WeightGenerator_selection || apply BiasGenerator_selection);
    rewrite generate_weight_group_cases; cbn; now rewrite Hnone.
Qed.

(** The lines that the selection does not reach, run on the stacked teacher
    tensors with the parameters in the place of the unbound names: a
    student-layer count of 0 divides by zero, and a role for which nothing
    is collected hands an empty list to [torch.stack].  Both are errors of
    the configuration. *)
Example zero_layers_divide_by_zero :
  fst ((t <- torch_stack (map snd (encoder teacher12)) ;;
        chunk <- int_truediv (Z.of_nat (hd 0 (shape t))) 0 ;;
        tensor_slice t (0 * chunk) ((0 + 1) * chunk))
         (state_of (Some teacher12)))
  = Raise ZeroDivisionError
  /\ configuration_error ZeroDivisionError = true.
Proof. split; reflexivity. Qed.

Example nothing_collected_fails_to_stack :
  fst (torch_stack [] (state_of (Some teacher12)))
  = Raise (RuntimeError "stack expects a non-empty TensorList")
  /\ configuration_error (RuntimeError "stack expects a non-empty TensorList")
     = true.
Proof. split; reflexivity. Qed.

(** C2, at a teacher of twelve encoder layers: the construction of either
    generator for a student-layer count of 0, the construction for a count
    of -4, and the construction for a role that no teacher tensor matches
    raise [NameError] on [class_name], the name that the loop of the
    selection reads in place of the role, for every layer index and for all
    student dimensions.  That is no error of the configuration, which the
    specification asks for: the division by the layer count and the stack
    of the collected tensors, which would raise one, are not reached. *)
Theorem configuration_defects_raise_NameError (i d_in d_out : Z) :
  WeightGenerator query_role i 0 d_in d_out (state_of (Some teacher12))
  = (Raise (NameError "class_name"), state_of (Some teacher12))
  /\ BiasGenerator query_role i 0 d_out (state_of (Some teacher12))
     = (Raise (NameError "class_name"), state_of (Some teacher12))
  /\ WeightGenerator query_role i (-4) d_in d_out (state_of (Some teacher12))
     = (Raise (NameError "class_name"), state_of (Some teacher12))
  /\ WeightGenerator "encoder.attention.self.key" i 4 d_in d_out
       (state_of (Some teacher12))
     = (Raise (NameError "class_name"), state_of (Some teacher12))
  /\ BiasGenerator "encoder.attention.self.key" i 4 d_out
       (state_of (Some teacher12))
     = (Raise (NameError "class_name"), state_of (Some teacher12))
  /\ configuration_error (NameError "class_name") = false.
Proof.
  repeat split;
    (apply WeightGenerator_selection || apply BiasGenerator_selection);
    rewrite generate_weight_group_cases; reflexivity.
Qed.

(** C3, at a valid configuration: twelve teacher query weights of shape
    [(2, 2)], four student layers, student dimensions [(2, 2)].  For no
    student layer does the construction return a weight generator: it
    raises [NameError] on [class_name], the defect of C1, and so does the
    construction of the layer that would hold the generator.  There is no
    generator whose [forward] could return a tensor of shape [(2, 2)]. *)
Theorem valid_configuration_not_constructed (i : Z) :
  WeightGenerator query_role i 4 2 2 (state_of (Some teacher12))
  = (Raise (NameError "class_name"), state_of (Some teacher12))
  /\ StudentLinear query_role i 4 2 2 (state_of (Some teacher12))
     = (Raise (NameError "class_name"), state_of (Some teacher12)).
Proof.
  split;
    (apply WeightGenerator_selection || apply StudentLinear_selection);
    rewrite generate_weight_group_cases; reflexivity.
Qed.

(** ** Determinism of [forward] *)

Lemma state_free_ret {A : Type} (a : A) : state_free (ret a).
Proof. intros st1 st2. reflexivity. Qed.

Lemma state_free_raise {A : Type} e : state_free (@raise A e).
Proof. intros st1 st2. reflexivity. Qed.

Lemma state_free_bind {A B : Type} (m : M A) (k : A -> M B) :
  state_free m -> (forall a, state_free (k a)) -> state_free (bind m k).
Proof.
  intros Hm Hk st1 st2. unfold bind.
  specialize (Hm st1 st2).
  destruct (m st1) as [[a1|e1] s1], (m st2) as [[a2|e2] s2];
    cbn [fst] in Hm; inversion Hm; subst; auto.
  apply Hk.
Qed.

Lemma state_free_torch_done op : state_free (torch_done op).
Proof. intros st1 st2. reflexivity. Qed.

Create HintDb state_free.
#[local] Hint Resolve state_free_ret state_free_raise state_free_torch_done
  : state_free.

Ltac state_free :=
  repeat first
    [ solve [auto with state_free]
    | apply state_free_bind; [|intros ?]
    | match goal with
      | |- state_free (match ?x with _ => _ end) => destruct x
      | |- state_free (if ?b then _ else _) => destruct b
      end ].

Lemma state_free_getattr self name : state_free (getattr self name).
Proof. unfold getattr. state_free. Qed.

Lemma state_free_as_tensor v : state_free (as_tensor v).
Proof. unfold as_tensor. state_free. Qed.

Lemma state_free_multi_mode_dot t m : state_free (multi_mode_dot t m).
Proof.
  unfold multi_mode_dot, multi_mode_dot_on, tensorly_backend. state_free.
Qed.

Lemma state_free_squeeze0 t : state_free (squeeze0 t).
Proof. unfold squeeze0. state_free. Qed.

Lemma state_free_call_tanh m x : state_free (call_tanh m x).
Proof. unfold call_tanh. state_free. Qed.

Lemma state_free_elementwise op f a b : state_free (elementwise op f a b).
Proof. unfold elementwise. state_free. Qed.

Lemma state_free_F_linear x w b : state_free (F_linear x w b).
Proof. unfold F_linear. state_free. Qed.

#[local] Hint Resolve state_free_getattr state_free_as_tensor
  state_free_multi_mode_dot state_free_squeeze0 state_free_call_tanh
  state_free_elementwise state_free_F_linear : state_free.

Lemma state_free_Generator_forward self : state_free (Generator_forward self).
Proof.
  unfold Generator_forward, tensor_mul, tensor_add. state_free.
Qed.

#[local] Hint Resolve state_free_Generator_forward : state_free.

Lemma state_free_call_generator m : state_free (call_generator m).
Proof.
  unfold call_generator, WeightGenerator_forward, BiasGenerator_forward.
  state_free.
Qed.

#[local] Hint Resolve state_free_call_generator : state_free.



(** On a layer that holds two generators, the two calls end in the same
    exception, the [TypeError] of the contraction, and the call changes
    nothing in the state. *)
Example StudentLinear_forward_twice :
  StudentLinear_forward sample_linear (mkTensor [1; 2] [1; 2]%R) (state_of None)
  = (Raise (TypeError "transpose() received an invalid combination of arguments"),
     state_of None)
  /\ fst (StudentLinear_forward sample_linear (mkTensor [1; 2] [1; 2]%R)
            (snd (StudentLinear_forward sample_linear
                    (mkTensor [1; 2] [1; 2]%R) (state_of None))))
     = Raise (TypeError "transpose() received an invalid combination of arguments").
Proof. split; reflexivity. Qed.

(** ** The input contract of the decoder and of the encoder *)

Lemma view_infer_error k n e :
  view_infer k n = Raise e -> input_contract_error e = false.
Proof.
  unfold view_infer. destruct (n =? 0); [intros [= <-]; reflexivity|].
  destruct (k mod n =? 0); [discriminate | intros [= <-]; reflexivity].
Qed.

Lemma last_dim_error s e :
  last_dim s = Raise e -> input_contract_error e = false.
Proof.
  unfold last_dim. destruct (rev s); [intros [= <-]; reflexivity | discriminate].
Qed.

Lemma first_dim_error s e :
  first_dim s = Raise e -> input_contract_error e = false.
Proof.
  unfold first_dim. destruct s; [intros [= <-]; reflexivity | discriminate].
Qed.

Lemma past_size_error past e :
  past_size past = Raise e -> input_contract_error e = false.
Proof.
  unfold past_size. destruct past as [|[key v] past];
    [intros [= <-]; reflexivity|].
  destruct (rev key) as [|x [|y r]]; try discriminate;
    intros [= <-]; reflexivity.
Qed.

Lemma past_shape2_error past e :
  past_shape2 past = Raise e -> input_contract_error e = false.
Proof.
  unfold past_shape2. destruct past as [|[key v] past];
    [intros [= <-]; reflexivity|].
  destruct key as [|x [|y [|z r]]]; try discriminate;
    intros [= <-]; reflexivity.
Qed.

(** Case analysis along the steps of the two openings. *)
Ltac break_inputs :=
  repeat (cbn [obind batch_size input_shape past_length position_shape
               mask_shape];
          try reflexivity;
          match goal with
          | |- context [last_dim ?s] => destruct (last_dim s)
          | |- context [first_dim ?s] => destruct (first_dim s)
          | |- context [view_infer ?k ?n] => destruct (view_infer k n)
          | |- context [past_size ?p] => destruct (past_size p)
          | |- context [past_shape2 ?p] => destruct (past_shape2 p)
          | |- context [match ?x with _ => _ end] => is_var x; destruct x
          | |- context [if ?b then _ else _] => destruct b
          end).

(** The check of the batch size is the last step, and it is guarded by the
    presence of the attention mask. *)
Lemma decoder_inputs_mask a :
  StudentDecoderModel_forward_inputs a
  = match StudentDecoderModel_forward_inputs (without_mask a) with
    | Raise e => Raise e
    | Ok p =>
        match attention_mask a with
        | None => Ok p
        | Some s =>
            if batch_size p <=? 0 then Raise (ValueError msg_batch)
            else cols <~ view_infer (numel s) (batch_size p) ;;
                 Ok (mkPrepared (input_shape p) (batch_size p) (past_length p)
                       (position_shape p) (Some [batch_size p; 1; 1; cols]))
        end
    end.
Proof.
  destruct a as [ii ie tt pp past mask].
  unfold StudentDecoderModel_forward_inputs, without_mask.
  cbn [input_ids inputs_embeds token_type_ids position_ids past_key_values
       attention_mask].
  destruct ii as [s|], ie as [s'|]; try reflexivity; break_inputs.
Qed.

(** A step of an opening that raises on its own account raises no error of
    the input contract. *)
Ltac foreign_error :=
  match goal with
  | E : last_dim _ = Raise ?e, H : input_contract_error ?e = true |- _ =>
      rewrite (last_dim_error _ _ E) in H; discriminate
  | E : first_dim _ = Raise ?e, H : input_contract_error ?e = true |- _ =>
      rewrite (first_dim_error _ _ E) in H; discriminate
  | E : view_infer _ _ = Raise ?e, H : input_contract_error ?e = true |- _ =>
      rewrite (view_infer_error _ _ _ E) in H; discriminate
  | E : past_size _ = Raise ?e, H : input_contract_error ?e = true |- _ =>
      rewrite (past_size_error _ _ E) in H; discriminate
  | E : past_shape2 _ = Raise ?e, H : input_contract_error ?e = true |- _ =>
      rewrite (past_shape2_error _ _ E) in H; discriminate
  end.

Ltac break_errors :=
  repeat (cbn [obind];
          match goal with
          | |- Ok _ = Raise _ -> _ => discriminate
          | |- Raise _ = Raise _ -> _ =>
              let H := fresh "H" in
              intros [= <-] H; first [foreign_error | discriminate H]
          | |- context [last_dim ?s] => destruct (last_dim s) eqn:?
          | |- context [first_dim ?s] => destruct (first_dim s) eqn:?
          | |- context [view_infer ?k ?n] => destruct (view_infer k n) eqn:?
          | |- context [past_size ?p] => destruct (past_size p) eqn:?
          | |- context [past_shape2 ?p] => destruct (past_shape2 p) eqn:?
          | |- context [match ?x with _ => _ end] => is_var x; destruct x
          end).

(** Without an attention mask the decoder raises an error of the input
    contract only for both inputs or none. *)
Lemma decoder_inputs_without_mask a e :
  StudentDecoderModel_forward_inputs (without_mask a) = Raise e ->
  input_contract_error e = true ->
  (supplied (input_ids a) = true /\ supplied (inputs_embeds a) = true
   /\ e = ValueError msg_both)
  \/ (supplied (input_ids a) = false /\ supplied (inputs_embeds a) = false
      /\ e = ValueError msg_neither).
Proof.
  destruct a as [ii ie tt pp past mask].
  unfold StudentDecoderModel_forward_inputs, without_mask.
  cbn [input_ids inputs_embeds token_type_ids position_ids past_key_values
       attention_mask supplied].
  destruct ii as [s|], ie as [s'|].
  - intros [= <-] _. left. auto.
  - break_errors.
  - break_errors.
  - intros [= <-] _. right. auto.
Qed.

(** C9, as the code has it.  The decoder raises the error of the input
    contract for both inputs, for none, and for a batch size of 0 when an
    attention mask is supplied (and the steps before the mask pass); it
    raises it in no other case, so not for a batch size of 0 without an
    attention mask.  The encoder raises it for no input, and never on
    account of the batch size when exactly one input is supplied. *)
Theorem input_contract_raised (a : forward_args) :
  (* the decoder *)
  (supplied (input_ids a) = true -> supplied (inputs_embeds a) = true ->
     StudentDecoderModel_forward_inputs a = Raise (ValueError msg_both))
  /\ (supplied (input_ids a) = false -> supplied (inputs_embeds a) = false ->
        StudentDecoderModel_forward_inputs a = Raise (ValueError msg_neither))
  /\ (forall p, supplied (attention_mask a) = true ->
        StudentDecoderModel_forward_inputs (without_mask a) = Ok p ->
        batch_size p = 0 ->
        StudentDecoderModel_forward_inputs a = Raise (ValueError msg_batch))
  /\ (forall e, StudentDecoderModel_forward_inputs a = Raise e ->
        input_contract_error e = true ->
        (supplied (input_ids a) = true /\ supplied (inputs_embeds a) = true
         /\ e = ValueError msg_both)
        \/ (supplied (input_ids a) = false /\ supplied (inputs_embeds a) = false
            /\ e = ValueError msg_neither)
        \/ (supplied (attention_mask a) = true
            /\ e = ValueError msg_batch
            /\ exists p, StudentDecoderModel_forward_inputs (without_mask a) = Ok p
                         /\ batch_size p = 0))
  (* the encoder *)
  /\ (supplied (input_ids a) = false -> supplied (inputs_embeds a) = false ->
        StudentEncoderModel_forward_inputs a = Raise (ValueError msg_neither))
  /\ (forall e, xorb (supplied (input_ids a)) (supplied (inputs_embeds a)) = true ->
        StudentEncoderModel_forward_inputs a = Raise e ->
        input_contract_error e = false).
Proof.
  split; [|split; [|split; [|split; [|split]]]].
  - unfold StudentDecoderModel_forward_inputs.
    destruct (input_ids a), (inputs_embeds a); cbn; congruence.
  - unfold StudentDecoderModel_forward_inputs.
    destruct (input_ids a), (inputs_embeds a); cbn; congruence.
  - intros p Hm Hp Hb. rewrite decoder_inputs_mask, Hp.
    destruct (attention_mask a); [|discriminate]. now rewrite Hb.
  - intros e. rewrite decoder_inputs_mask.
    destruct (StudentDecoderModel_forward_inputs (without_mask a)) as [p|e0] eqn:Hp.
    + destruct (attention_mask a) as [s|]; [|discriminate].
      destruct (batch_size p <=? 0) eqn:Hb.
      * intros [= <-] _. right. right. repeat split.
        exists p. split; [reflexivity|]. apply Nat.leb_le in Hb. lia.
      * destruct (view_infer (numel s) (batch_size p)) eqn:Hv; cbn [obind];
          [discriminate|].
        intros [= <-] H. now rewrite (view_infer_error _ _ _ Hv) in H.
    + intros [= <-] H.
      destruct (decoder_inputs_without_mask a e0 Hp H) as [?|?]; tauto.
  - unfold StudentEncoderModel_forward_inputs.
    destruct (input_ids a), (inputs_embeds a); cbn; congruence.
  - intros e Hx. destruct a as [ii ie tt pp past mask].
    unfold StudentEncoderModel_forward_inputs.
    cbn [input_ids inputs_embeds token_type_ids position_ids past_key_values
         attention_mask supplied] in *.
    destruct ii as [s|], ie as [s'|]; try discriminate Hx; cbn [obind].
    + destruct s as [|b [|l [|x s]]]; cbn [obind];
        try (intros [= <-]; reflexivity).
      destruct past as [past|]; cbn [obind]; [|discriminate].
      destruct (past_shape2 past) eqn:E; cbn [obind]; [discriminate|].
      intros [= <-]. eapply past_shape2_error; eauto.
    + destruct (removelast s') as [|b [|l [|x s]]]; cbn [obind];
        try (intros [= <-]; reflexivity).
      destruct past as [past|]; cbn [obind]; [|discriminate].
      destruct (past_shape2 past) eqn:E; cbn [obind]; [discriminate|].
      intros [= <-]. eapply past_shape2_error; eauto.
Qed.

Lemma input_contract_raised_witness :
  StudentDecoderModel_forward_inputs
    (mkArgs (Some [2; 3]) (Some [2; 3; 8]) None None None None)
  = Raise (ValueError msg_both)
  /\ StudentDecoderModel_forward_inputs
       (mkArgs None None None None None None)
     = Raise (ValueError msg_neither)
  /\ StudentDecoderModel_forward_inputs
       (mkArgs (Some [0; 3]) None None None None (Some [0; 3]))
     = Raise (ValueError msg_batch)
  /\ StudentEncoderModel_forward_inputs
       (mkArgs None None None None None None)
     = Raise (ValueError msg_neither).
Proof.
  split; [|split; [|split]].
  - exact (proj1 (input_contract_raised
                    (mkArgs (Some [2; 3]) (Some [2; 3; 8]) None None None None))
             eq_refl eq_refl).
  - exact (proj1 (proj2 (input_contract_raised (mkArgs None None None None None None)))
             eq_refl eq_refl).
  - exact (proj1 (proj2 (proj2 (input_contract_raised
             (mkArgs (Some [0; 3]) None None None None (Some [0; 3])))))
             (mkPrepared [0; 3] 0 0 [1; 3] None) eq_refl eq_refl eq_refl).
  - exact (proj1 (proj2 (proj2 (proj2 (proj2
             (input_contract_raised (mkArgs None None None None None None))))))
             eq_refl eq_refl).
Defined.

(** The counterexample to C9 as the specification has it: for token ids of
    shape [(0, 3)], a batch size of 0, and no attention mask, the opening of
    the decoder [forward] raises nothing and goes on with the batch size 0;
    and the encoder raises nothing for both inputs together. *)
Lemma empty_batch_passes_the_checks :
  StudentDecoderModel_forward_inputs empty_batch
  = Ok (mkPrepared [0; 3] 0 0 [1; 3] None)
  /\ StudentDecoderModel_forward (fun p => Ok (batch_size p)) empty_batch = Ok 0
  /\ StudentEncoderModel_forward_inputs
       (mkArgs (Some [2; 3]) (Some [2; 3; 8]) None None None None)
     = Ok (mkEncPrepared 2 3 0).
Proof. repeat split. Qed.

(** ** Inputs of a generation step *)

Lemma skipn_last (r : list Z) :
  1 <= length r -> skipn (length r - 1) r = [last r 0%Z].
Proof.
  induction r as [|x r IH]; cbn [length]; [lia|]. intros _.
  destruct r as [|y r]; [reflexivity|].
  replace (S (length (y :: r)) - 1) with (S (length (y :: r) - 1))
    by (cbn [length]; lia).
  cbn [skipn]. rewrite IH by (cbn [length]; lia). reflexivity.
Qed.

Lemma last_column_slice_rows t :
  ids_wf t -> 1 <= seq_len t ->
  last_column_slice t = mkIds 1 (map (fun r => [last r 0%Z]) (rows t)).
Proof.
  unfold ids_wf, last_column_slice. intros Hwf Hlen. f_equal.
  - lia.
  - apply map_ext_in. intros r Hr.
    rewrite Forall_forall in Hwf. apply skipn_last. rewrite (Hwf r Hr). lia.
Qed.

Lemma last_column_rows t :
  1 <= seq_len t ->
  last_column t = Ok (mkIds 1 (map (fun r => [last r 0%Z]) (rows t))).
Proof.
  unfold last_column. intros H.
  destruct (seq_len t =? 0) eqn:E; [apply Nat.eqb_eq in E; lia | reflexivity].
Qed.

(** C7: at a generation step with a non-empty cache, both
    [prepare_inputs_for_generation] hand on, of the token ids [(batch, n)]
    with [n >= 1], the last column only: a tensor [(batch, 1)] that holds the
    last token of every row; without a cache ([past] is [None]) the token
    ids are handed on as they are. *)
Theorem generation_step_inputs {T K : Type} (token_ids : ids)
    (k : K) (cache : list K)
    (attention_mask head_mask decoder_head_mask cross_attn_head_mask : option T)
    (use_cache : option bool) (encoder_outputs : option (outputs T))
    (kw_token_type_ids kw_attention_mask kw_position_ids : option ids) :
  ids_wf token_ids -> 1 <= seq_len token_ids ->
  some_column kw_token_type_ids -> some_column kw_attention_mask ->
  let last_tokens := mkIds 1 (map (fun r => [last r 0%Z]) (rows token_ids)) in
  let grafomer past :=
    GrafomerModel_prepare_inputs_for_generation token_ids past attention_mask
      head_mask decoder_head_mask cross_attn_head_mask use_cache
      encoder_outputs in
  let student past :=
    Student_prepare_inputs_for_generation token_ids past kw_token_type_ids
      kw_attention_mask kw_position_ids use_cache in
  gi_decoder_input_ids (grafomer (Some (k :: cache))) = last_tokens
  /\ gi_past_key_values (grafomer (Some (k :: cache))) = Some (k :: cache)
  /\ gi_decoder_input_ids (grafomer None) = token_ids
  /\ (exists s, student (Some (k :: cache)) = Ok s
                /\ sg_input_ids s = last_tokens
                /\ sg_past_key_values s = Some (k :: cache))
  /\ (exists s, student None = Ok s /\ sg_input_ids s = token_ids)
  /\ ids_shape last_tokens = (length (rows token_ids), 1).
Proof.
  intros Hwf Hlen Htt Ham last_tokens grafomer student.
  split; [|split; [|split; [|split; [|split]]]].
  - apply last_column_slice_rows; assumption.
  - reflexivity.
  - reflexivity.
  - unfold student, Student_prepare_inputs_for_generation. cbn [truthy].
    rewrite (last_column_rows token_ids Hlen). cbn [obind].
    assert (Htok : exists o, match kw_token_type_ids with
                             | Some t => t0 <~ last_column t ;; Ok (Some t0)
                             | None => Ok None
                             end = Ok o).
    { destruct kw_token_type_ids as [t|]; [|eauto].
      rewrite (last_column_rows t Htt). cbn [obind]. eauto. }
    destruct Htok as [o ->]. cbn [obind].
    destruct kw_attention_mask as [mask|]; [|eexists; repeat split].
    destruct kw_position_ids; [eexists; repeat split|].
    rewrite (last_column_rows (positions_of_mask mask)) by exact Ham.
    eexists. repeat split.
  - unfold student, Student_prepare_inputs_for_generation. cbn [truthy obind].
    destruct kw_attention_mask, kw_position_ids; eexists; repeat split.
  - unfold ids_shape, last_tokens. cbn [rows seq_len]. now rewrite length_map.
Qed.

Lemma generation_step_inputs_witness :
  gi_decoder_input_ids
    (@GrafomerModel_prepare_inputs_for_generation Z nat sample_ids (Some [0])
       None None None None None None)
  = mkIds 1 [[7]; [10]]%Z
  /\ exists s,
       @Student_prepare_inputs_for_generation nat sample_ids (Some [0])
         None None None None = Ok s
       /\ sg_input_ids s = mkIds 1 [[7]; [10]]%Z.
Proof.
  assert (Hwf : ids_wf sample_ids) by (repeat constructor).
  assert (Hlen : 1 <= seq_len sample_ids) by (cbn; lia).
  pose proof (@generation_step_inputs Z nat sample_ids 0 [] None None None None
                None None None None None Hwf Hlen I I) as H.
  cbv zeta in H. destruct H as (Hg & _ & _ & (s & Hs & Hi & _) & _).
  split; [exact Hg|]. exists s. split; [exact Hs | exact Hi].
Defined.

(** ** The logits of GrafomerModel *)

Lemma obind_ok {A B : Type} (r : outcome A) (k : A -> outcome B) b :
  obind r k = Ok b -> exists a, r = Ok a /\ k a = Ok b.
Proof. destruct r as [a|e]; cbn; [eauto | discriminate]. Qed.

(** The decoder outputs of the stage are those of the decoder body, called
    on the decoder inputs when there are some and on the encoder inputs
    otherwise. *)
Lemma stage_decoder_outputs {T : Type} (self : GrafomerModel T)
    (a : grafomer_args T) (s : grafomer_stage T) :
  GrafomerModel_forward_stage self a = Ok s ->
  match g_decoder_input_ids a with
  | Some d => decoder_body self (Some d) (g_decoder_attention_mask a)
                (g_use_cache a)
  | None => decoder_body self (g_input_ids a) None (g_use_cache a)
  end = Ok (st_decoder_outputs s).
Proof.
  unfold GrafomerModel_forward_stage. intros H.
  apply obind_ok in H as (eo & _ & H).
  destruct (g_decoder_input_ids a) as [d|].
  - apply obind_ok in H as (o & Ho & H). rewrite Ho.
    repeat (apply obind_ok in H as (? & _ & H)).
    now inversion H.
  - apply obind_ok in H as (o & Ho & H). rewrite Ho.
    apply obind_ok in H as (sh & _ & H).
    apply obind_ok in H as ([bsz sql] & _ & H).
    repeat (apply obind_ok in H as (? & _ & H)).
    now inversion H.
Qed.

(** C6: whenever [GrafomerModel.forward] returns, the logits are the output
    head of the pretrained decoder applied to the sum of the hidden state of
    the decoder body (its output 0) and of the output of the bridge, which
    has run on the hidden states of the encoder and of the decoder body and
    on the three masks. *)
Theorem GrafomerModel_forward_logits {T : Type} (self : GrafomerModel T)
    (a : grafomer_args T) (out : Seq2SeqLMOutput T) :
  GrafomerModel_forward self a = Ok out ->
  exists (s : grafomer_stage T) (bridge combined : T),
    GrafomerModel_forward_stage self a = Ok s
    /\ match g_decoder_input_ids a with
       | Some d => decoder_body self (Some d) (g_decoder_attention_mask a)
                     (g_use_cache a)
       | None => decoder_body self (g_input_ids a) None (g_use_cache a)
       end = Ok (st_decoder_outputs s)
    /\ GraftAttentionModule_forward (graft_module self)
         (fst (st_encoder_outputs s)) (st_mask s)
         (fst (st_decoder_outputs s)) (st_dec_mask s) (st_cross_mask s)
         (g_output_attentions a) None false None = Ok bridge
    /\ tensor_plus self (fst (st_decoder_outputs s)) bridge = Ok combined
    /\ decoder_head self combined = Ok (logits out).
Proof.
  unfold GrafomerModel_forward. intros H.
  apply obind_ok in H as (s & Hs & H).
  apply obind_ok in H as (bridge & Hb & H).
  apply obind_ok in H as (combined & Hc & H).
  apply obind_ok in H as (l & Hl & H).
  inversion H; subst. cbn [logits].
  exists s, bridge, combined.
  repeat split; auto using stage_decoder_outputs.
Qed.

(** Conversely [forward] returns as soon as every step does. *)
Lemma GrafomerModel_forward_returns {T : Type} (self : GrafomerModel T)
    (a : grafomer_args T) s bridge combined l :
  GrafomerModel_forward_stage self a = Ok s ->
  bridge_output self a s = Ok bridge ->
  tensor_plus self (fst (st_decoder_outputs s)) bridge = Ok combined ->
  decoder_head self combined = Ok l ->
  GrafomerModel_forward self a = Ok (mkOutput l).
Proof.
  intros Hs Hb Hc Hl. unfold GrafomerModel_forward.
  rewrite Hs. cbn [obind]. rewrite Hb. cbn [obind].
  rewrite Hc. cbn [obind]. rewrite Hl. reflexivity.
Qed.

Lemma GrafomerModel_forward_logits_witness :
  exists s bridge combined,
    GrafomerModel_forward_stage sample_grafomer sample_call = Ok s
    /\ fst (st_decoder_outputs s) = 10%Z
    /\ bridge = 10%Z
    /\ tensor_plus sample_grafomer (fst (st_decoder_outputs s)) bridge
       = Ok combined
    /\ decoder_head sample_grafomer combined = Ok 40%Z.
Proof.
  destruct (GrafomerModel_forward_logits sample_grafomer sample_call
              (mkOutput 40%Z) eq_refl)
    as (s & bridge & combined & Hs & Hd & Hb & Hc & Hl).
  exists s, bridge, combined.
  assert (E : s = mkStage (1%Z, []) (10%Z, []) 0%Z 0%Z 0%Z)
    by (cbn in Hs; congruence).
  subst s. cbn in Hb.
  repeat split; auto; congruence.
Defined.

(** * Further properties *)

(** ** Blocks of a list *)

Lemma chunks_length n size (d : list R) : length (chunks n size d) = n.
Proof. revert d. induction n; intros d; cbn; auto. Qed.

Lemma chunks_concat size (l : list (list R)) :
  Forall (fun c => length c = size) l ->
  chunks (length l) size (concat l) = l.
Proof.
  induction 1 as [|c l Hc _ IH]; [reflexivity|].
  cbn [length chunks concat].
  rewrite firstn_app, skipn_app, Hc, Nat.sub_diag.
  rewrite (firstn_all2 c), (skipn_all2 c) by lia.
  cbn [firstn skipn app]. rewrite app_nil_r. now rewrite IH.
Qed.

Lemma concat_length_const size (l : list (list R)) :
  Forall (fun c => length c = size) l ->
  length (concat l) = length l * size.
Proof.
  induction 1 as [|c l Hc _ IH]; [reflexivity|].
  cbn [concat length]. rewrite length_app, IH, Hc. lia.
Qed.

Lemma map_nth_seq {A : Type} (d : A) (l : list A) :
  map (fun j => nth j l d) (seq 0 (length l)) = l.
Proof.
  induction l as [|x l IH]; [reflexivity|].
  cbn [length seq map nth]. f_equal.
  rewrite <- seq_shift, map_map. exact IH.
Qed.

Lemma transpose_length {A : Type} (d : A) ncols rows :
  length (transpose d ncols rows) = ncols.
Proof. unfold transpose. now rewrite length_map, length_seq. Qed.

Lemma transpose_rows {A : Type} (d : A) ncols rows :
  Forall (fun c => length c = length rows) (transpose d ncols rows).
Proof.
  unfold transpose. apply Forall_forall. intros c Hc.
  apply in_map_iff in Hc as (j & <- & _). apply length_map.
Qed.

Lemma transpose_entries {A : Type} (P : A -> Prop) (d : A) ncols rows :
  Forall (fun r => length r = ncols) rows ->
  Forall (Forall P) rows ->
  Forall (Forall P) (transpose d ncols rows).
Proof.
  intros Hlen HP. unfold transpose. apply Forall_forall. intros c Hc.
  apply in_map_iff in Hc as (j & <- & Hj). apply in_seq in Hj.
  apply Forall_forall. intros x Hx.
  apply in_map_iff in Hx as (r & <- & Hr).
  rewrite Forall_forall in Hlen, HP.
  specialize (HP r Hr). rewrite Forall_forall in HP. apply HP.
  apply nth_In. rewrite (Hlen r Hr). lia.
Qed.

Lemma nth_map_in {A B : Type} (f : A -> B) (l : list A) i d d0 :
  i < length l -> nth i (map f l) d = f (nth i l d0).
Proof.
  intros H. rewrite (nth_indep _ d (f d0)) by now rewrite length_map.
  apply map_nth.
Qed.

(** Transposing twice gives the grid back. *)
Lemma transpose_involutive {A : Type} (d : A) nr nc (rows : list (list A)) :
  length rows = nr ->
  Forall (fun r => length r = nc) rows ->
  transpose d nr (transpose d nc rows) = rows.
Proof.
  intros <- Hlen. unfold transpose.
  transitivity (map (fun i => nth i rows []) (seq 0 (length rows)));
    [|apply map_nth_seq].
  apply map_ext_in. intros i Hi. apply in_seq in Hi.
  rewrite map_map.
  assert (Hrow : length (nth i rows []) = nc).
  { rewrite Forall_forall in Hlen. apply Hlen, nth_In. lia. }
  transitivity (map (fun j => nth j (nth i rows []) d) (seq 0 nc));
    [|rewrite <- Hrow; apply map_nth_seq].
  apply map_ext. intros j.
  apply (nth_map_in (fun r => nth j r d) rows i d []). lia.
Qed.

(** ** Splitting and merging the heads *)

(** One batch element [(rows, cols, d)] with its first two axes swapped. *)
Lemma swap_axes_length rows cols d (x : list R) :
  length x = rows * (cols * d) ->
  length (concat (map (@concat R)
            (transpose [] cols (map (chunks cols d) (chunks rows (cols * d) x)))))
  = cols * (rows * d).
Proof.
  intros Hx.
  rewrite (concat_length_const (rows * d)).
  - now rewrite length_map, transpose_length.
  - apply Forall_forall. intros c Hc.
    apply in_map_iff in Hc as (row & <- & Hrow).
    pose proof (transpose_rows [] cols
                  (map (chunks cols d) (chunks rows (cols * d) x))) as Hr.
    rewrite length_map, chunks_length in Hr.
    rewrite Forall_forall in Hr. specialize (Hr row Hrow).
    rewrite (concat_length_const d); [now rewrite Hr|].
    assert (Hall : Forall (Forall (fun blk : list R => length blk = d))
                     (transpose [] cols
                        (map (chunks cols d) (chunks rows (cols * d) x)))).
    { apply transpose_entries.
      - apply Forall_forall. intros r Hin.
        apply in_map_iff in Hin as (y & <- & _). apply chunks_length.
      - apply Forall_forall. intros r Hin.
        apply in_map_iff in Hin as (y & <- & Hy).
        apply chunks_all_length.
        pose proof (chunks_all_length rows (cols * d) x Hx) as Hc.
        rewrite Forall_forall in Hc. now apply Hc. }
    rewrite Forall_forall in Hall. now apply Hall.
Qed.

Lemma swap_axes_inverse rows cols d (x : list R) :
  length x = rows * (cols * d) ->
  concat (map (@concat R)
    (transpose [] rows
       (map (chunks rows d)
          (chunks cols (rows * d)
             (concat (map (@concat R)
                (transpose [] cols
                   (map (chunks cols d) (chunks rows (cols * d) x)))))))))
  = x.
Proof.
  intros Hx.
  set (grid := map (chunks cols d) (chunks rows (cols * d) x)).
  assert (Hgrid_len : length grid = rows)
    by (unfold grid; now rewrite length_map, chunks_length).
  assert (Hgrid_rows : Forall (fun r => length r = cols) grid).
  { apply Forall_forall. intros r Hin.
    apply in_map_iff in Hin as (y & <- & _). apply chunks_length. }
  assert (Hgrid_blocks : Forall (Forall (fun blk : list R => length blk = d)) grid).
  { apply Forall_forall. intros r Hin.
    apply in_map_iff in Hin as (y & <- & Hy).
    apply chunks_all_length.
    pose proof (chunks_all_length rows (cols * d) x Hx) as Hc.
    rewrite Forall_forall in Hc. now apply Hc. }
  set (T := transpose [] cols grid).
  assert (HT_len : length T = cols) by apply transpose_length.
  assert (HT_rows : Forall (fun r => length r = rows) T).
  { unfold T. rewrite <- Hgrid_len. apply transpose_rows. }
  assert (HT_blocks : Forall (Forall (fun blk : list R => length blk = d)) T)
    by (apply transpose_entries; assumption).
  (* the blocks of the swapped element are the rows of [T] *)
  assert (H1 : chunks cols (rows * d) (concat (map (@concat R) T))
               = map (@concat R) T).
  { rewrite <- HT_len at 1. rewrite <- (length_map (@concat R) T).
    apply chunks_concat. apply Forall_forall. intros c Hc.
    apply in_map_iff in Hc as (row & <- & Hrow).
    rewrite Forall_forall in HT_rows, HT_blocks.
    rewrite (concat_length_const d) by now apply HT_blocks.
    now rewrite HT_rows. }
  rewrite H1, map_map.
  assert (H2 : map (fun row => chunks rows d (concat row)) T = T).
  { rewrite <- (map_id T) at 2. apply map_ext_in. intros row Hrow.
    rewrite Forall_forall in HT_rows, HT_blocks.
    rewrite <- (HT_rows row Hrow). apply chunks_concat. now apply HT_blocks. }
  rewrite H2. unfold T.
  rewrite transpose_involutive by assumption.
  unfold grid. rewrite map_map.
  rewrite <- (concat_chunks rows (cols * d) x Hx) at 2. f_equal.
  rewrite <- (map_id (chunks rows (cols * d) x)) at 2.
  apply map_ext_in. intros row Hrow. apply concat_chunks.
  pose proof (chunks_all_length rows (cols * d) x Hx) as Hc.
  rewrite Forall_forall in Hc. now apply Hc.
Qed.

(** Swapping the two middle axes twice gives the entries back. *)
Lemma swap_axes_twice b s h d (x : list R) :
  length x = b * (s * (h * d)) ->
  swap_axes b h s d (swap_axes b s h d x) = x.
Proof.
  intros Hx. unfold swap_axes.
  pose proof (chunks_all_length b (s * (h * d)) x Hx) as Hall.
  rewrite (flat_map_concat_map _ (chunks b (s * (h * d)) x)).
  rewrite <- (chunks_length b (s * (h * d)) x) at 1.
  rewrite <- (length_map
                (fun batch =>
                   concat (map (@concat R)
                     (transpose [] h (map (chunks h d) (chunks s (h * d) batch)))))
                (chunks b (s * (h * d)) x)).
  rewrite chunks_concat.
  2:{ apply Forall_forall. intros c Hc.
      apply in_map_iff in Hc as (batch & <- & Hb).
      rewrite Forall_forall in Hall.
      apply swap_axes_length. now apply Hall. }
  rewrite flat_map_concat_map, map_map.
  rewrite <- (concat_chunks b (s * (h * d)) x Hx) at 2. f_equal.
  rewrite <- (map_id (chunks b (s * (h * d)) x)) at 2.
  apply map_ext_in. intros batch Hb.
  rewrite Forall_forall in Hall.
  apply swap_axes_inverse. now apply Hall.
Qed.

Lemma swap_axes_numel b s h d (x : list R) :
  length x = b * (s * (h * d)) ->
  length (swap_axes b s h d x) = b * (h * (s * d)).
Proof.
  intros Hx. unfold swap_axes.
  pose proof (chunks_all_length b (s * (h * d)) x Hx) as Hall.
  rewrite flat_map_concat_map.
  rewrite (concat_length_const (h * (s * d))).
  - now rewrite length_map, chunks_length.
  - apply Forall_forall. intros c Hc.
    apply in_map_iff in Hc as (batch & <- & Hb).
    rewrite Forall_forall in Hall.
    apply swap_axes_length. now apply Hall.
Qed.

Lemma tensor_view_ok t new_shape st :
  numel new_shape = numel (shape t) ->
  tensor_view t new_shape st
  = (Ok (mkTensor new_shape (data t)), logged "view" st).
Proof.
  intros H. unfold tensor_view.
  apply Nat.eqb_eq in H. rewrite H. reflexivity.
Qed.

Lemma split_heads_ok t b s h d st :
  shape t = [b; s; h * d] ->
  _split_heads t h d st
  = (Ok (mkTensor [b; h; s; d] (swap_axes b s h d (data t))),
     logged "permute" (logged "view" st)).
Proof.
  intros Hs. unfold _split_heads. rewrite Hs. cbn [removelast app].
  erewrite bind_ok by (apply tensor_view_ok; rewrite Hs; cbn; lia).
  reflexivity.
Qed.

Lemma merge_heads_ok u b h s d st :
  shape u = [b; h; s; d] ->
  _merge_heads u h d st
  = (Ok (mkTensor [b; s; h * d] (swap_axes b h s d (data u))),
     logged "view" (logged "contiguous" (logged "permute" st))).
Proof.
  intros Hs. unfold _merge_heads, permute_0213. rewrite Hs.
  cbv beta iota zeta delta [bind ret torch_done].
  cbn [shape data removelast app].
  rewrite tensor_view_ok by (cbn; lia). reflexivity.
Qed.

(** X1: [_split_heads] and [_merge_heads] are inverse to each other: a
    tensor [(b, s, h * d)] split into [h] heads of size [d] is a tensor
    [(b, h, s, d)], and merging it gives the tensor back; a tensor
    [(b, h, s, d)] merged is a tensor [(b, s, h * d)], and splitting it gives
    the tensor back. *)
Theorem split_merge_heads (b s h d : nat) (st : pystate) :
  (forall t, shape t = [b; s; h * d] -> wf t ->
     exists u st1 st2,
       _split_heads t h d st = (Ok u, st1)
       /\ shape u = [b; h; s; d] /\ wf u
       /\ _merge_heads u h d st1 = (Ok t, st2))
  /\ (forall u, shape u = [b; h; s; d] -> wf u ->
        exists t st1 st2,
          _merge_heads u h d st = (Ok t, st1)
          /\ shape t = [b; s; h * d] /\ wf t
          /\ _split_heads t h d st1 = (Ok u, st2)).
Proof.
  split.
  - intros t Hs Hwf.
    assert (Hlen : length (data t) = b * (s * (h * d)))
      by (unfold wf in Hwf; rewrite Hwf, Hs; cbn; lia).
    do 3 eexists. split; [apply (split_heads_ok t b s h d st Hs)|].
    split; [reflexivity|]. split.
    + unfold wf. cbn [shape data numel fold_right].
      rewrite (swap_axes_numel b s h d _ Hlen). lia.
    + rewrite (merge_heads_ok _ b h s d) by reflexivity.
      cbn [data]. rewrite (swap_axes_twice b s h d _ Hlen).
      destruct t as [sh dt]. cbn [shape data] in *. now subst sh.
  - intros u Hs Hwf.
    assert (Hlen : length (data u) = b * (h * (s * d)))
      by (unfold wf in Hwf; rewrite Hwf, Hs; cbn; lia).
    do 3 eexists. split; [apply (merge_heads_ok u b h s d st Hs)|].
    split; [reflexivity|]. split.
    + unfold wf. cbn [shape data numel fold_right].
      rewrite (swap_axes_numel b h s d _ Hlen). lia.
    + rewrite (split_heads_ok _ b s h d) by reflexivity.
      cbn [data]. rewrite (swap_axes_twice b h s d _ Hlen).
      destruct u as [sh dt]. cbn [shape data] in *. now subst sh.
Qed.

Example swap_axes_example :
  swap_axes 1 2 3 1 [1; 2; 3; 4; 5; 6]%R = [1; 4; 2; 5; 3; 6]%R.
Proof. reflexivity. Qed.

Lemma split_merge_heads_witness :
  exists u st1 st2,
    _split_heads (mkTensor [1; 2; 3] [1; 2; 3; 4; 5; 6]%R) 3 1 (state_of None)
    = (Ok u, st1)
    /\ shape u = [1; 3; 2; 1] /\ wf u
    /\ _merge_heads u 3 1 st1
       = (Ok (mkTensor [1; 2; 3] [1; 2; 3; 4; 5; 6]%R), st2).
Proof.
  exact (proj1 (split_merge_heads 1 2 3 1 (state_of None))
           (mkTensor [1; 2; 3] [1; 2; 3; 4; 5; 6]%R) eq_refl eq_refl).
Defined.

(** X2: [_split_heads] returns exactly on the tensors of rank 3 whose number
    of entries is that of the shape with the last axis replaced by
    [(num_heads, attn_head_size)]; the result then has the shape
    [(b, num_heads, s, attn_head_size)]; on every other tensor it raises
    [RuntimeError]. *)
Theorem split_heads_domain (t : tensor) (h d : nat) (st : pystate) :
  match fst (_split_heads t h d st) with
  | Ok u =>
      exists b s l, shape t = [b; s; l] /\ b * (s * l) = b * (s * (h * d))
                    /\ shape u = [b; h; s; d]
  | Raise e =>
      (exists m, e = RuntimeError m)
      /\ ~ (exists b s l, shape t = [b; s; l] /\ b * (s * l) = b * (s * (h * d)))
  end.
Proof.
  assert (Hno : forall sh : list nat,
             length sh <> 3 ->
             ~ (exists b s l, sh = [b; s; l]
                              /\ b * (s * l) = b * (s * (h * d)))).
  { intros sh Hlen (b & s & l & -> & _). now apply Hlen. }
  unfold _split_heads, tensor_view, permute_0213, bind. cbv zeta.
  destruct (shape t) as [|b [|s [|l [|x sh]]]] eqn:Hs;
    cbn [removelast app].
  - destruct (_ =? _); cbn [torch_done ret raise shape fst];
      (split; [eauto | apply Hno; cbn; lia]).
  - destruct (_ =? _); cbn [torch_done ret raise shape fst];
      (split; [eauto | apply Hno; cbn; lia]).
  - destruct (_ =? _); cbn [torch_done ret raise shape fst];
      (split; [eauto | apply Hno; cbn; lia]).
  - destruct (numel [b; s; h; d] =? numel [b; s; l]) eqn:E;
      cbn [torch_done ret raise shape fst].
    + apply Nat.eqb_eq in E. cbn in E.
      exists b, s, l. repeat split. lia.
    + apply Nat.eqb_neq in E. split; [eauto|].
      intros (b' & s' & l' & [= <- <- <-] & Hn). apply E. cbn. lia.
  - destruct (_ =? _); cbn [torch_done ret raise shape fst];
      [|split; [eauto | apply Hno; cbn; lia]].
    destruct sh as [|y [|z sh]]; cbn [removelast app raise fst];
      (split; [eauto | apply Hno; cbn; lia]).
Qed.

(** X3: [_merge_heads] returns exactly on a tensor [(b, h, s, d)] whose
    number of entries is that of [(b, s, num_heads * attn_head_size)], and
    raises [RuntimeError] on any other tensor; the result has that shape.
    The number of heads [h] of the tensor is not compared with
    [num_heads]. *)
Theorem merge_heads_domain (t : tensor) (num_heads attn_head_size : nat)
    (st : pystate) :
  match fst (_merge_heads t num_heads attn_head_size st) with
  | Ok u =>
      exists b h s d,
        shape t = [b; h; s; d]
        /\ b * (s * (num_heads * attn_head_size)) = b * (h * (s * d))
        /\ shape u = [b; s; num_heads * attn_head_size]
  | Raise e =>
      (exists m, e = RuntimeError m)
      /\ ~ (exists b h s d,
              shape t = [b; h; s; d]
              /\ b * (s * (num_heads * attn_head_size)) = b * (h * (s * d)))
  end.
Proof.
  unfold _merge_heads, permute_0213, bind.
  destruct (shape t) as [|b [|h [|s [|d [|x sh]]]]] eqn:Hs;
    try (cbn [raise fst]; split; [eauto|];
         intros (b' & h' & s' & d' & [=] & _)).
  cbn [torch_done ret shape removelast app]. unfold tensor_view.
  cbn [shape].
  destruct (numel [b; s; num_heads * attn_head_size] =? numel [b; s; h; d])
    eqn:E; cbn [torch_done ret raise bind shape fst].
  - apply Nat.eqb_eq in E. cbn [numel fold_right] in E.
    exists b, h, s, d. split; [reflexivity|]. split; [nia | reflexivity].
  - apply Nat.eqb_neq in E. cbn [numel fold_right] in E.
    split; [eauto|].
    intros (b' & h' & s' & d' & [= <- <- <- <-] & Hn). apply E. nia.
Qed.

(** ** Reordering the cache *)

Lemma index_select_spec {A : Type} (d : A) (slices : list A) (index : list Z) :
  match index_select slices index with
  | Ok r => beams_within (length slices) index
            /\ r = map (fun i => nth (Z.to_nat i) slices d) index
  | Raise e => e = IndexError "index out of range in self"
               /\ ~ beams_within (length slices) index
  end.
Proof.
  unfold beams_within.
  induction index as [|i index IH]; cbn [index_select].
  - split; [constructor | reflexivity].
  - destruct (i <? 0)%Z eqn:Hneg.
    + split; [reflexivity|]. intros H. inversion H; subst.
      apply Z.ltb_lt in Hneg. lia.
    + apply Z.ltb_ge in Hneg.
      destruct (nth_error slices (Z.to_nat i)) as [x|] eqn:Hx.
      * assert (Hlt : Z.to_nat i < length slices)
          by (apply nth_error_Some; congruence).
        destruct (index_select slices index) as [r|e]; cbn [obind].
        -- destruct IH as [Hall ->]. split.
           ++ constructor; [lia | assumption].
           ++ cbn [map]. f_equal.
              symmetry. now apply nth_error_nth.
        -- destruct IH as [-> Hnot]. split; [reflexivity|].
           intros H. inversion H; subst. auto.
      * split; [reflexivity|]. intros H. inversion H; subst.
        apply nth_error_None in Hx. lia.
Qed.

Lemma index_select_ok {A : Type} (d : A) (slices : list A) (index : list Z) :
  beams_within (length slices) index ->
  index_select slices index
  = Ok (map (fun i => nth (Z.to_nat i) slices d) index).
Proof.
  intros H. pose proof (index_select_spec d slices index) as S.
  destruct (index_select slices index) as [r|e].
  - now destruct S as [_ ->].
  - now destruct S as [_ Hn].
Qed.

Lemma traverse_spec {A B : Type} (f : A -> outcome B) (l : list A) :
  match traverse f l with
  | Ok r => Forall2 (fun x y => f x = Ok y) l r
  | Raise e => Exists (fun x => f x = Raise e) l
  end.
Proof.
  induction l as [|x l IH]; cbn [traverse]; [constructor|].
  destruct (f x) as [y|e] eqn:Hx; cbn [obind].
  - destruct (traverse f l) as [r|e]; cbn [obind].
    + constructor; assumption.
    + now apply Exists_cons_tl.
  - now apply Exists_cons_hd.
Qed.

Lemma traverse_ok {A B : Type} (f : A -> outcome B) (g : A -> B) (l : list A) :
  Forall (fun x => f x = Ok (g x)) l -> traverse f l = Ok (map g l).
Proof.
  induction 1 as [|x l Hx _ IH]; cbn [traverse map]; [reflexivity|].
  now rewrite Hx, IH.
Qed.

Lemma traverse_raise {A B : Type} (f : A -> outcome B) (l : list A) e :
  traverse f l = Raise e -> exists x, In x l /\ f x = Raise e.
Proof.
  intros H. pose proof (traverse_spec f l) as S. rewrite H in S.
  apply Exists_exists in S. exact S.
Qed.

(** X4: [_reorder_cache] returns exactly when every index of [beam_idx]
    names a slice of every cached state, and raises [IndexError] otherwise;
    what it returns has the layers and the states of [past] in their order,
    and each state holds, at place [j], the slice of the old state that
    [beam_idx[j]] names. *)
Theorem reorder_cache_spec {A : Type} (d : A) (past : list (list (list A)))
    (beam_idx : list Z) :
  match _reorder_cache past beam_idx with
  | Ok r =>
      Forall (Forall (fun state => beams_within (length state) beam_idx)) past
      /\ r = map (map (fun state =>
                         map (fun i => nth (Z.to_nat i) state d) beam_idx))
                 past
  | Raise e =>
      e = IndexError "index out of range in self"
      /\ ~ Forall (Forall (fun state => beams_within (length state) beam_idx))
           past
  end.
Proof.
  unfold _reorder_cache.
  destruct (traverse _ past) as [r|e] eqn:H.
  - pose proof (traverse_spec
                  (fun layer_past =>
                     traverse (fun s => index_select s beam_idx) layer_past)
                  past) as S.
    rewrite H in S. clear H.
    induction S as [|layer r1 past' r' Hl _ IH].
    + split; [constructor | reflexivity].
    + destruct IH as [Hall ->].
      assert (Hlayer : Forall (fun s => beams_within (length s) beam_idx) layer
                       /\ r1 = map (fun s => map (fun i => nth (Z.to_nat i) s d)
                                                 beam_idx) layer).
      { pose proof (traverse_spec (fun s => index_select s beam_idx) layer) as S.
        rewrite Hl in S. clear Hl.
        induction S as [|s y layer' r1' Hs _ IH'].
        - split; [constructor | reflexivity].
        - destruct IH' as [Hall' ->].
          pose proof (index_select_spec d s beam_idx) as Sp.
          rewrite Hs in Sp. destruct Sp as [Hin ->].
          split; [constructor; assumption | reflexivity]. }
      destruct Hlayer as [Hl' ->].
      split; [constructor; assumption | reflexivity].
  - apply traverse_raise in H. destruct H as (layer & Hin & H).
    apply traverse_raise in H. destruct H as (s & Hin' & H).
    pose proof (index_select_spec d s beam_idx) as Sp.
    rewrite H in Sp. destruct Sp as [-> Hnot].
    split; [reflexivity|]. intros Hall.
    rewrite Forall_forall in Hall. specialize (Hall _ Hin).
    rewrite Forall_forall in Hall. auto.
Qed.

Lemma index_select_from {A : Type} (pre s : list A) :
  index_select (pre ++ s) (map Z.of_nat (seq (length pre) (length s))) = Ok s.
Proof.
  revert pre. induction s as [|x s IH]; intros pre; [reflexivity|].
  cbn [length seq map index_select].
  destruct (Z.of_nat (length pre) <? 0)%Z eqn:Hneg;
    [apply Z.ltb_lt in Hneg; lia|].
  rewrite Nat2Z.id, nth_error_app2, Nat.sub_diag by lia. cbn [nth_error].
  specialize (IH (pre ++ [x])).
  rewrite <- app_assoc, length_app in IH. cbn [app length] in IH.
  rewrite Nat.add_1_r in IH. now rewrite IH.
Qed.

Lemma traverse_id {A : Type} (f : A -> outcome A) (l : list A) :
  Forall (fun x => f x = Ok x) l -> traverse f l = Ok l.
Proof.
  intros H. rewrite (traverse_ok f (fun x => x)) by assumption.
  now rewrite map_id.
Qed.

(** X5: when every cached state has [n] slices along its first axis,
    reordering by the beams [0, 1, ..., n-1] returns the cache as it is. *)
Theorem reorder_cache_identity {A : Type} (past : list (list (list A)))
    (n : nat) :
  Forall (Forall (fun state => length state = n)) past ->
  _reorder_cache past (map Z.of_nat (seq 0 n)) = Ok past.
Proof.
  intros H. unfold _reorder_cache.
  apply traverse_id. eapply Forall_impl; [|exact H].
  intros layer Hl. apply traverse_id. eapply Forall_impl; [|exact Hl].
  intros s <-. exact (index_select_from [] s).
Qed.

Lemma reorder_cache_identity_witness :
  _reorder_cache [[[1; 2; 3]; [4; 5; 6]]; [[7; 8; 9]]]
    (map Z.of_nat (seq 0 3))
  = Ok [[[1; 2; 3]; [4; 5; 6]]; [[7; 8; 9]]].
Proof.
  apply (reorder_cache_identity [[[1; 2; 3]; [4; 5; 6]]; [[7; 8; 9]]] 3).
  repeat constructor.
Defined.

Lemma compose_beams_within (n : nat) (first second : list Z) :
  beams_within n first -> beams_within (length first) second ->
  beams_within n (compose_beams first second).
Proof.
  unfold beams_within, compose_beams. intros H1 H2.
  apply Forall_forall. intros i Hi.
  apply in_map_iff in Hi. destruct Hi as (j & <- & Hj).
  rewrite Forall_forall in H1, H2. specialize (H2 _ Hj).
  apply H1, nth_In. lia.
Qed.

(** X6: reordering twice is reordering once by the composed beams: when
    the cache is reordered by [first], and [second] names beams of that
    result, reordering the result by [second] gives what reordering the
    cache by [compose_beams first second] gives, and both return. *)
Theorem reorder_cache_compose {A : Type} (past once : list (list (list A)))
    (first second : list Z) :
  _reorder_cache past first = Ok once ->
  beams_within (length first) second ->
  exists twice,
    _reorder_cache once second = Ok twice
    /\ _reorder_cache past (compose_beams first second) = Ok twice.
Proof.
  intros H1 H2.
  assert (Hstate : forall s s1 : list A,
             index_select s first = Ok s1 ->
             exists s2, index_select s1 second = Ok s2
                        /\ index_select s (compose_beams first second) = Ok s2).
  { intros s s1 Hs.
    destruct s as [|d s'].
    - (* no slice: [first] is empty, and so is [second] *)
      destruct first as [|i first'].
      + destruct second as [|j second']; [|inversion H2; cbn in *; lia].
        injection Hs as <-. exists []. split; reflexivity.
      + cbn in Hs. destruct (i <? 0)%Z; [discriminate|].
        destruct (Z.to_nat i); discriminate.
    - pose proof (index_select_spec d (d :: s') first) as Sp.
      rewrite Hs in Sp. destruct Sp as [Hin ->].
      set (s := d :: s') in *.
      rewrite (index_select_ok d).
      2:{ now rewrite length_map. }
      rewrite (index_select_ok d).
      2:{ now apply compose_beams_within. }
      eexists. split; [reflexivity|]. f_equal.
      unfold compose_beams. rewrite map_map.
      apply map_ext_in. intros j Hj.
      unfold beams_within in H2. rewrite Forall_forall in H2.
      specialize (H2 _ Hj).
      rewrite (nth_indep (map (fun i => nth (Z.to_nat i) s d) first) d
                 (nth (Z.to_nat 0) s d))
        by (rewrite length_map; lia).
      now rewrite (map_nth (fun i => nth (Z.to_nat i) s d)). }
  assert (Hlayer : forall l l1 : list (list A),
             traverse (fun s => index_select s first) l = Ok l1 ->
             exists l2,
               traverse (fun s => index_select s second) l1 = Ok l2
               /\ traverse (fun s => index_select s (compose_beams first second)) l
                  = Ok l2).
  { intros l l1 Hl.
    pose proof (traverse_spec (fun s => index_select s first) l) as S.
    rewrite Hl in S. clear Hl.
    induction S as [|s s1 l' l1' Hs _ IH].
    - exists []. split; reflexivity.
    - destruct IH as (l2 & Ha & Hb).
      destruct (Hstate s s1 Hs) as (s2 & Hc & Hd).
      exists (s2 :: l2). cbn [traverse]. now rewrite Hc, Ha, Hd, Hb. }
  unfold _reorder_cache in *.
  pose proof (traverse_spec
                (fun layer => traverse (fun s => index_select s first) layer)
                past) as S.
  rewrite H1 in S. clear H1.
  induction S as [|l l1 p' o' Hl _ IH].
  - exists []. split; reflexivity.
  - destruct IH as (t2 & Ha & Hb).
    destruct (Hlayer l l1 Hl) as (l2 & Hc & Hd).
    exists (l2 :: t2). cbn [traverse]. now rewrite Hc, Ha, Hd, Hb.
Qed.

Lemma reorder_cache_compose_witness :
  exists twice,
    _reorder_cache [[[20; 10]; [40; 30]]] [0; 0; 1]%Z = Ok twice
    /\ _reorder_cache [[[10; 20]; [30; 40]]]
         (compose_beams [1; 0]%Z [0; 0; 1]%Z) = Ok twice.
Proof.
  apply (reorder_cache_compose [[[10; 20]; [30; 40]]] [[[20; 10]; [40; 30]]]
           [1; 0]%Z [0; 0; 1]%Z).
  - reflexivity.
  - unfold beams_within. repeat constructor; cbn; lia.
Defined.

(** ** EncoderPooler *)

Lemma nth_chunks b size (x : list R) i j :
  i < b -> j < size ->
  nth j (nth i (chunks b size x) []) 0%R = nth (i * size + j) x 0%R.
Proof.
  revert x i. induction b as [|b IH]; intros x i Hi Hj; [lia|].
  cbn [chunks]. destruct i as [|i]; cbn [nth].
  - rewrite nth_firstn. destruct (j <? size) eqn:E; [reflexivity|].
    apply Nat.ltb_ge in E. lia.
  - rewrite IH by lia. rewrite nth_skipn. f_equal. lia.
Qed.

Lemma flat_map_length_const {A B : Type} (f : A -> list B) (l : list A) n :
  Forall (fun x => length (f x) = n) l ->
  length (flat_map f l) = length l * n.
Proof.
  induction 1 as [|x l Hx _ IH]; [reflexivity|].
  cbn [flat_map length]. rewrite length_app, Hx, IH. lia.
Qed.

Lemma first_tokens_length bs s n (x : list R) :
  length x = bs * (s * n) -> 1 <= s ->
  Forall (fun c => length (firstn n c) = n) (chunks bs (s * n) x).
Proof.
  intros Hx Hs.
  pose proof (chunks_all_length bs (s * n) x Hx) as H.
  eapply Forall_impl; [|exact H].
  intros c Hc. cbv beta in *. rewrite length_firstn, Hc. nia.
Qed.

Lemma select_first_ok t bs s n st :
  shape t = [bs; s; n] -> 1 <= s ->
  select_first t st
  = (Ok (mkTensor [bs; n]
           (flat_map (firstn (n * 1)) (chunks bs (s * (n * 1)) (data t)))),
     logged "select" st).
Proof.
  intros Hs Hl. unfold select_first. rewrite Hs.
  destruct (s =? 0) eqn:E; [apply Nat.eqb_eq in E; lia|].
  reflexivity.
Qed.

Lemma get_module self name cls m st :
  holds_module self name cls m -> getattr self name st = (Ok m, st).
Proof.
  destruct self as [| |c r attrs]; cbn [holds_module]; try tauto.
  intros [H _]. unfold getattr. now rewrite H.
Qed.

Lemma F_linear_ok x W b lead i o st :
  shape W = [o; i] -> shape b = [o] -> shape x = lead ++ [i] ->
  F_linear x W b st
  = (Ok (mkTensor (lead ++ [o])
           (flat_map (fun r => map2 Rplus (map (dot r) (chunks o i (data W)))
                                    (data b))
              (chunks (numel (rev lead)) i (data x)))),
     logged "linear" st).
Proof.
  intros HW Hb Hx. unfold F_linear.
  rewrite HW, Hx, rev_app_distr. cbn [rev app].
  rewrite Nat.eqb_refl, Hb. unfold shape_eqb.
  destruct (list_eq_dec Nat.eq_dec [o] [o]) as [_|N]; [|congruence].
  cbn [andb]. rewrite rev_involutive. reflexivity.
Qed.

Lemma numel_rev s : numel (rev s) = numel s.
Proof.
  unfold numel. induction s as [|n s IH]; [reflexivity|].
  cbn [rev fold_right]. rewrite fold_right_app. cbn [fold_right].
  rewrite <- IH. clear IH.
  induction (rev s) as [|m r IH]; cbn [fold_right]; [lia|].
  rewrite IH. lia.
Qed.

Lemma numel_app s1 s2 : numel (s1 ++ s2) = numel s1 * numel s2.
Proof.
  unfold numel. induction s1 as [|n s IH]; cbn [app fold_right]; [lia|].
  rewrite IH. lia.
Qed.

Lemma F_linear_wf x W b lead i o st :
  shape W = [o; i] -> shape b = [o] -> shape x = lead ++ [i] -> wf b ->
  exists out, F_linear x W b st = (Ok out, logged "linear" st)
              /\ shape out = lead ++ [o] /\ wf out.
Proof.
  intros HW Hb Hx Wb.
  rewrite (F_linear_ok x W b lead i o st HW Hb Hx).
  eexists. split; [reflexivity|]. split; [reflexivity|].
  unfold wf in *. cbn [shape data].
  rewrite (flat_map_length_const _ _ o).
  - rewrite chunks_length, numel_rev, numel_app. cbn [numel fold_right]. lia.
  - apply Forall_forall. intros r _.
    rewrite map2_length, length_map, chunks_length, Wb, Hb.
    cbn [numel fold_right]. lia.
Qed.

Lemma call_Linear_ok dense x W b lead i o st :
  (exists a, dense = VModule "Linear" true a) ->
  holds dense "weight" W -> holds dense "bias" b ->
  shape W = [o; i] -> shape b = [o] -> shape x = lead ++ [i] -> wf b ->
  exists out, call_Linear dense x st = (Ok out, logged "linear" st)
              /\ shape out = lead ++ [o] /\ wf out.
Proof.
  intros [a ->] Hw Hb SW Sb Sx Wb.
  unfold call_Linear. cbn [negb String.eqb Ascii.eqb Bool.eqb].
  rewrite (bind_ok _ _ _ _ _ (get_tensor _ _ _ _ Hw)).
  rewrite (bind_ok _ _ _ _ _ (get_tensor _ _ _ _ Hb)).
  now apply F_linear_wf with (i := i).
Qed.

(** X7: on a pooler set up for the hidden size [n] and hidden states
    [(batch, seq, n)] with at least one token per sequence,
    [EncoderPooler.forward] returns a tensor [(batch, n)], one pooled
    vector for each sequence; on sequences without a token it raises
    [IndexError]. *)
Theorem EncoderPooler_forward_pooled (self dense : value) (W b : tensor)
    (n bs s : nat) (hidden_states : tensor) (st : pystate) :
  valid_pooler self dense W b n ->
  shape hidden_states = [bs; s; n] ->
  match s with
  | 0 => exists m, fst (EncoderPooler_forward self hidden_states st)
                   = Raise (IndexError m)
  | _ =>
      exists out st',
        EncoderPooler_forward self hidden_states st = (Ok out, st')
        /\ shape out = [bs; n] /\ wf out
  end.
Proof.
  intros [Hd [act Ha] Hw Hb SW Sb WW Wb] Hs.
  unfold EncoderPooler_forward.
  destruct s as [|s].
  - unfold bind at 1. unfold select_first. rewrite Hs. cbn. eauto.
  - rewrite (bind_ok _ _ _ _ _ (select_first_ok _ _ _ _ _ Hs ltac:(lia))).
    rewrite (bind_ok _ _ _ _ _ (get_module _ _ _ _ _ Hd)).
    assert (Hcls : exists a, dense = VModule "Linear" true a).
    { destruct self; cbn in Hd; tauto. }
    destruct (call_Linear_ok dense
                (mkTensor [bs; n]
                   (flat_map (firstn (n * 1))
                      (chunks bs (S s * (n * 1)) (data hidden_states))))
                W b [bs] n n (logged "select" st) Hcls Hw Hb SW Sb eq_refl Wb)
      as (out & Hout & So & Wo).
    rewrite (bind_ok _ _ _ _ _ Hout).
    rewrite (bind_ok _ _ _ _ _ (get_module _ _ _ _ _ Ha)).
    assert (Hact : exists a, act = VModule "Tanh" true a).
    { destruct self; cbn in Ha; tauto. }
    destruct Hact as [a ->].
    unfold call_tanh. cbn [negb String.eqb Ascii.eqb Bool.eqb].
    do 2 eexists. split; [reflexivity|].
    cbn [shape data]. split; [exact So|].
    unfold wf in *. cbn [shape data]. rewrite length_map. exact Wo.
Qed.

Lemma sample_pooler_valid :
  valid_pooler sample_pooler sample_dense
    (mkTensor [2; 2] [1; 2; 3; 4]%R) (mkTensor [2] [5; 6]%R) 2.
Proof.
  constructor; try reflexivity; cbn; eauto.
  split; [reflexivity|]. unfold sample_dense. eauto.
Qed.

Lemma EncoderPooler_forward_pooled_witness :
  exists out st',
    EncoderPooler_forward sample_pooler sample_hidden (state_of None)
    = (Ok out, st')
    /\ shape out = [2; 2] /\ wf out.
Proof.
  exact (EncoderPooler_forward_pooled sample_pooler sample_dense _ _ 2 2 2
           sample_hidden (state_of None) sample_pooler_valid eq_refl).
Defined.

Lemma nth_map_firstn n (l : list (list R)) i :
  nth i (map (firstn n) l) [] = firstn n (nth i l []).
Proof. rewrite <- (map_nth (firstn n)). now rewrite firstn_nil. Qed.

Lemma state_free_call_Linear m x : state_free (call_Linear m x).
Proof. unfold call_Linear. state_free. Qed.

(** X8: the pooled output depends on the first token of every sequence
    only: two batches of hidden states, of sequence lengths that may
    differ, whose first tokens have the same entries, are pooled to the
    same outcome by any pooler, in any two states. *)
Theorem EncoderPooler_forward_first_token (self : value) (h1 h2 : tensor)
    (bs s1 s2 n : nat) (st1 st2 : pystate) :
  shape h1 = [bs; s1; n] -> shape h2 = [bs; s2; n] -> wf h1 -> wf h2 ->
  1 <= s1 -> 1 <= s2 ->
  (forall i j, i < bs -> j < n ->
     nth (i * (s1 * n) + j) (data h1) 0%R
     = nth (i * (s2 * n) + j) (data h2) 0%R) ->
  fst (EncoderPooler_forward self h1 st1)
  = fst (EncoderPooler_forward self h2 st2).
Proof.
  intros S1 S2 W1 W2 L1 L2 Heq.
  unfold EncoderPooler_forward.
  rewrite (bind_ok _ _ _ _ _ (select_first_ok _ _ _ _ st1 S1 L1)).
  rewrite (bind_ok _ _ _ _ _ (select_first_ok _ _ _ _ st2 S2 L2)).
  rewrite !Nat.mul_1_r.
  assert (Hsame : map (firstn n) (chunks bs (s1 * n) (data h1))
                  = map (firstn n) (chunks bs (s2 * n) (data h2))).
  { unfold wf in W1, W2. rewrite S1 in W1. rewrite S2 in W2.
    cbn [numel fold_right] in W1, W2. rewrite Nat.mul_1_r in W1, W2.
    pose proof (first_tokens_length bs s1 n _ W1 L1) as F1.
    pose proof (first_tokens_length bs s2 n _ W2 L2) as F2.
    apply nth_ext with (d := []) (d' := []).
    - now rewrite !length_map, !chunks_length.
    - intros i Hi. rewrite length_map, chunks_length in Hi.
      rewrite !nth_map_firstn.
      rewrite Forall_forall in F1, F2.
      assert (I1 : In (nth i (chunks bs (s1 * n) (data h1)) [])
                      (chunks bs (s1 * n) (data h1)))
        by (apply nth_In; now rewrite chunks_length).
      assert (I2 : In (nth i (chunks bs (s2 * n) (data h2)) [])
                      (chunks bs (s2 * n) (data h2)))
        by (apply nth_In; now rewrite chunks_length).
      apply nth_ext with (d := 0%R) (d' := 0%R).
      + now rewrite (F1 _ I1), (F2 _ I2).
      + intros j Hj. rewrite (F1 _ I1) in Hj.
        rewrite !nth_firstn.
        destruct (j <? n) eqn:E; [|reflexivity].
        rewrite !nth_chunks by nia. now apply Heq. }
  rewrite !flat_map_concat_map, Hsame.
  cbv beta.
  match goal with
  | |- fst (?m _) = fst (?m _) => assert (Hk : state_free m)
  end.
  { state_free; auto using state_free_call_Linear. }
  apply Hk.
Qed.

Lemma EncoderPooler_forward_first_token_witness :
  fst (EncoderPooler_forward sample_pooler sample_hidden (state_of None))
  = fst (EncoderPooler_forward sample_pooler sample_hidden_short
           (state_of None)).
Proof.
  apply (EncoderPooler_forward_first_token sample_pooler sample_hidden
           sample_hidden_short 2 2 1 2); try reflexivity; try lia.
  intros [|[|i]] [|[|j]] Hi Hj; try lia; reflexivity.
Defined.

(** ** StudentLinear *)



(** ** The positions of a generation step *)

Lemma real_tokens_step (r : list Z) k :
  k < length r ->
  real_tokens (firstn (S k) r)
  = real_tokens (firstn k r) + (if (nth k r 0 =? 1)%Z then 1 else 0).
Proof.
  unfold real_tokens. revert k. induction r as [|x r IH]; intros k Hk;
    cbn [length] in Hk; [lia|].
  destruct k as [|k].
  - cbn [firstn nth count_occ]. destruct (Z.eq_dec x 1) as [->|N].
    + reflexivity.
    + destruct (x =? 1)%Z eqn:E; [apply Z.eqb_eq in E; congruence|].
      reflexivity.
  - rewrite firstn_cons. cbn [count_occ nth].
    rewrite (firstn_cons k). cbn [count_occ].
    rewrite IH by lia. destruct (Z.eq_dec x 1); lia.
Qed.

Lemma cumsum_length acc r : length (cumsum acc r) = length r.
Proof. revert acc. induction r; intros acc; cbn; auto. Qed.

Lemma cumsum_real_tokens (r : list Z) :
  Forall (fun m => m = 0%Z \/ m = 1%Z) r ->
  forall acc k, k < length r ->
    nth k (cumsum acc r) 0%Z
    = (acc + Z.of_nat (real_tokens (firstn (S k) r)))%Z.
Proof.
  unfold real_tokens.
  induction 1 as [|x r Hx _ IH]; intros acc k Hk; cbn [length] in Hk; [lia|].
  cbn [cumsum]. destruct k as [|k].
  - cbn [nth firstn count_occ].
    destruct Hx as [-> | ->]; cbn; lia.
  - cbn [nth]. rewrite IH by lia. rewrite (firstn_cons (S k)).
    cbn [count_occ]. destruct Hx as [-> | ->]; cbn; lia.
Qed.

Lemma last_as_nth {A : Type} (l : list A) d :
  last l d = nth (length l - 1) l d.
Proof.
  induction l as [|x l IH]; [reflexivity|].
  destruct l as [|y l]; [reflexivity|].
  change (last (x :: y :: l) d) with (last (y :: l) d). rewrite IH.
  cbn [length]. rewrite !Nat.sub_succ, !Nat.sub_0_r. reflexivity.
Qed.

(** The position of column [k] in a row of a mask of zeros and ones. *)
Lemma position_entry (r : list Z) k :
  Forall (fun m => m = 0%Z \/ m = 1%Z) r -> k < length r ->
  nth k (map2 (fun m p => if (m =? 0)%Z then 1%Z else (p - 1)%Z)
              r (cumsum 0%Z r)) 0%Z
  = if (nth k r 0 =? 0)%Z then 1%Z
    else Z.of_nat (real_tokens (firstn k r)).
Proof.
  intros H01 Hk.
  rewrite (nth_map2 _ r (cumsum 0%Z r) k 0%Z 0%Z)
    by (rewrite ?cumsum_length; lia).
  rewrite (cumsum_real_tokens r H01) by lia.
  rewrite real_tokens_step by lia.
  assert (Hx : nth k r 0%Z = 0%Z \/ nth k r 0%Z = 1%Z).
  { rewrite Forall_forall in H01. apply H01, nth_In, Hk. }
  destruct Hx as [-> | ->]; cbn; lia.
Qed.

(** X10: the positions that [prepare_inputs_for_generation] of the student
    derives from an attention mask of zeros and ones count the real tokens:
    without a cache, a column that is masked out gets the position 1 and
    any other column the number of real tokens to its left in its row;
    with a cache, the single column handed on is that position of the last
    column of the mask. *)
Theorem generation_positions {K : Type} (token_ids : ids)
    (past : option (list K)) (kw_token_type_ids : option ids) (mask : ids)
    (kw_use_cache : option bool) (s : student_generation_inputs K) :
  binary_mask mask -> ids_wf mask ->
  Student_prepare_inputs_for_generation token_ids past kw_token_type_ids
    (Some mask) None kw_use_cache = Ok s ->
  exists pos,
    sg_position_ids s = Some pos
    /\ length (rows pos) = length (rows mask)
    /\ forall i, i < length (rows mask) ->
         let row := nth i (rows mask) [] in
         let position k :=
           if (nth k row 0 =? 0)%Z then 1%Z
           else Z.of_nat (real_tokens (firstn k row)) in
         if truthy past
         then nth i (rows pos) [] = [position (seq_len mask - 1)]
         else length (nth i (rows pos) []) = seq_len mask
              /\ forall k, k < seq_len mask ->
                   nth k (nth i (rows pos) []) 0%Z = position k.
Proof.
  intros H01 Hwf Hs.
  unfold Student_prepare_inputs_for_generation in Hs.
  apply obind_ok in Hs. destruct Hs as (tok & _ & Hs).
  assert (Hrow : forall i, i < length (rows mask) ->
             length (nth i (rows mask) []) = seq_len mask
             /\ Forall (fun m => m = 0%Z \/ m = 1%Z) (nth i (rows mask) [])).
  { intros i Hi. unfold ids_wf, binary_mask in *.
    rewrite Forall_forall in Hwf, H01.
    split; [apply Hwf | apply H01]; now apply nth_In. }
  set (f := fun r : list Z =>
              map2 (fun m p => if (m =? 0)%Z then 1%Z else (p - 1)%Z)
                   r (cumsum 0%Z r)) in *.
  assert (Hf : forall i, nth i (map f (rows mask)) [] = f (nth i (rows mask) []))
    by (intros i; exact (map_nth f (rows mask) [] i)).
  destruct (truthy past) eqn:Hp.
  - unfold last_column in Hs. cbn [positions_of_mask seq_len rows] in Hs.
    fold f in Hs.
    destruct (seq_len mask =? 0) eqn:E; [discriminate|].
    apply Nat.eqb_neq in E. cbn [obind] in Hs. injection Hs as <-.
    eexists. split; [reflexivity|].
    split; [cbn [rows]; now rewrite !length_map|].
    intros i Hi row position. cbn [rows].
    destruct (Hrow i Hi) as [Hlen Hrow01]. fold row in Hlen, Hrow01.
    rewrite map_map.
    rewrite (nth_map_in (fun r => [last (f r) 0%Z]) (rows mask) i [] [])
      by assumption.
    fold row. f_equal.
    rewrite last_as_nth. unfold f at 1.
    rewrite map2_length, cumsum_length, Nat.min_id, Hlen.
    apply position_entry; [assumption | lia].
  - cbn [obind] in Hs. injection Hs as <-.
    eexists. split; [reflexivity|].
    split; [cbn [positions_of_mask rows]; now rewrite length_map|].
    intros i Hi row position. cbn [positions_of_mask rows]. fold f.
    destruct (Hrow i Hi) as [Hlen Hrow01]. fold row in Hlen, Hrow01.
    rewrite Hf. fold row. split.
    + unfold f. now rewrite map2_length, cumsum_length, Nat.min_id.
    + intros k Hk. apply position_entry; [assumption | lia].
Qed.

Lemma generation_positions_witness :
  exists pos,
    Some (mkIds 1 [[1]; [3]]%Z) = Some pos
    /\ length (rows pos) = 2
    /\ forall i, i < 2 ->
         nth i (rows pos) []
         = [ if (nth 3 (nth i (rows sample_mask) []) 0 =? 0)%Z then 1%Z
             else Z.of_nat
                    (real_tokens (firstn 3 (nth i (rows sample_mask) []))) ].
Proof.
  assert (H01 : binary_mask sample_mask)
    by (unfold binary_mask; cbn; repeat constructor; auto).
  assert (Hwf : ids_wf sample_mask) by (repeat constructor).
  exact (@generation_positions nat sample_ids (Some [0]) None sample_mask None
           _ H01 Hwf eq_refl).
Defined.

(** ** What the checks of the inputs establish *)

Lemma view_infer_ok k n r :
  view_infer k n = Ok r -> 0 < n /\ r * n = k.
Proof.
  unfold view_infer. destruct (n =? 0) eqn:En; [discriminate|].
  apply Nat.eqb_neq in En.
  destruct (k mod n =? 0) eqn:Em; [|discriminate].
  apply Nat.eqb_eq in Em. intros [= <-]. split; [lia|].
  apply Nat.Div0.div_exact in Em. lia.
Qed.

Lemma last_dim_ok s n :
  last_dim s = Ok n -> exists lead, s = lead ++ [n].
Proof.
  unfold last_dim. destruct (rev s) as [|m r] eqn:E; [discriminate|].
  intros [= ->]. exists (rev r).
  rewrite <- (rev_involutive s), E. reflexivity.
Qed.

Lemma past_size_ok past n :
  past_size past = Ok n ->
  exists key value rest lead c,
    past = (key, value) :: rest /\ key = lead ++ [n; c].
Proof.
  unfold past_size. destruct past as [|[key value] rest]; [discriminate|].
  destruct (rev key) as [|c [|m r]] eqn:E; try discriminate.
  intros [= ->]. exists key, value, rest, (rev r), c.
  split; [reflexivity|].
  rewrite <- (rev_involutive key), E. cbn [rev].
  now rewrite <- app_assoc.
Qed.

Tactic Notation "step" hyp(H) ident(x) ident(Hx) :=
  apply obind_ok in H; destruct H as (x & Hx & H).

(** X11: what [StudentDecoderModel.forward] has established when its
    checks of the inputs are passed.  Exactly one of [input_ids] and
    [inputs_embeds] is supplied; the last size [n] of the input shape is
    positive; token ids [(..., n)] are seen as [batch_size] rows of [n];
    the position ids have the shape [(rows, n)], a single row when the
    code makes them; an attention mask is there only with a positive batch
    size, has the shape [(batch_size, 1, 1, cols)] and keeps its entries;
    a cache is not empty and [past_length] is the size of the axis before
    the last of its first key. *)
Theorem decoder_inputs_prepared (a : forward_args) (p : decoder_prepared) :
  StudentDecoderModel_forward_inputs a = Ok p ->
  exists n,
    0 < n
    /\ (exists lead, input_shape p = lead ++ [n])
    /\ match input_ids a, inputs_embeds a with
       | Some s, None => input_shape p = s /\ batch_size p * n = numel s
       | None, Some s =>
           (exists h, s = input_shape p ++ [h]) /\ hd 0 s = batch_size p
       | _, _ => False
       end
    /\ (exists rows,
          position_shape p = [rows; n]
          /\ match position_ids a with
             | Some s => rows * n = numel s
             | None => rows = 1
             end)
    /\ match token_type_ids a with
       | Some s => exists rows, rows * n = numel s
       | None => True
       end
    /\ match attention_mask a with
       | Some m =>
           0 < batch_size p
           /\ exists cols, mask_shape p = Some [batch_size p; 1; 1; cols]
                           /\ batch_size p * cols = numel m
       | None => mask_shape p = None
       end
    /\ match past_key_values a with
       | Some past =>
           exists key value rest lead c,
             past = (key, value) :: rest
             /\ key = lead ++ [past_length p; c]
       | None => past_length p = 0
       end.
Proof.
  destruct a as [ii ie tt pp past mask].
  unfold StudentDecoderModel_forward_inputs.
  cbn [input_ids inputs_embeds token_type_ids position_ids past_key_values
       attention_mask].
  intros H.
  step H sb Hsb. destruct sb as [ishape bsize].
  step H t Ht. step H pos Hpos. step H plen Hplen. step H pshape Hpshape.
  step H mshape Hmshape. injection H as <-.
  cbn [input_shape batch_size past_length position_shape mask_shape].
  (* the last size of the input shape *)
  assert (Hn : exists n rows, last_dim ishape = Ok n /\ 0 < n
                 /\ pshape = [rows; n]
                 /\ match pp with
                    | Some s => rows * n = numel s
                    | None => rows = 1
                    end).
  { destruct pp as [s|].
    - step Hpos n Hn. step Hpos rows Hrows. injection Hpos as <-.
      injection Hpshape as <-.
      destruct (view_infer_ok _ _ _ Hrows). exists n, rows. auto.
    - injection Hpos as <-.
      step Hpshape n Hn. step Hpshape rows Hrows. injection Hpshape as <-.
      destruct (view_infer_ok _ _ _ Hrows) as [Hpos E].
      exists n, rows. repeat split; auto. nia. }
  destruct Hn as (n & rows & Hlast & Hpos_n & -> & Hrows).
  destruct (last_dim_ok _ _ Hlast) as [lead Hlead].
  exists n. split; [assumption|]. split; [eauto|].
  split; [|split; [|split; [|split]]].
  - destruct ii as [s|], ie as [s'|]; try discriminate.
    + step Hsb n' Hn'. step Hsb r Hr. injection Hsb as <- <-.
      rewrite Hlast in Hn'. injection Hn' as <-.
      destruct (view_infer_ok _ _ _ Hr). auto.
    + step Hsb b Hb. injection Hsb as <- <-.
      unfold first_dim in Hb. destruct s' as [|x s']; [discriminate|].
      injection Hb as ->. split; [|reflexivity].
      exists (last (b :: s') 0).
      rewrite <- app_removelast_last; [reflexivity | discriminate].
  - eauto.
  - destruct tt as [s|]; [|exact I].
    step Ht n' Hn'. rewrite Hlast in Hn'. injection Hn' as <-.
    destruct (view_infer_ok _ _ _ Ht). eauto.
  - destruct mask as [m|]; [|now injection Hmshape as <-].
    destruct (bsize <=? 0) eqn:E; [discriminate|].
    apply Nat.leb_gt in E. split; [assumption|].
    step Hmshape cols Hcols. injection Hmshape as <-.
    destruct (view_infer_ok _ _ _ Hcols). exists cols. split; [reflexivity|].
    lia.
  - destruct past as [past|]; [|now injection Hplen as <-].
    now apply past_size_ok.
Qed.

Lemma decoder_inputs_prepared_witness :
  exists n,
    0 < n
    /\ (exists lead, [2; 3] = lead ++ [n])
    /\ ([2; 3] = [2; 3] /\ 2 * n = 6)
    /\ (exists rows, [1; 3] = [rows; n] /\ rows = 1)
    /\ True
    /\ (0 < 2 /\ exists cols, Some [2; 1; 1; 5] = Some [2; 1; 1; cols]
                              /\ 2 * cols = 10)
    /\ (exists key value rest lead c,
          [([2; 4; 2; 8], [2; 4; 2; 8])] = (key, value) :: rest
          /\ key = lead ++ [2; c]).
Proof.
  exact (decoder_inputs_prepared
           (mkArgs (Some [2; 3]) None None None
                   (Some [([2; 4; 2; 8], [2; 4; 2; 8])]) (Some [2; 5]))
           (mkPrepared [2; 3] 2 2 [1; 3] (Some [2; 1; 1; 5])) eq_refl).
Defined.

Lemma past_shape2_ok past n :
  past_shape2 past = Ok n ->
  exists key value rest b h tail,
    past = (key, value) :: rest /\ key = b :: h :: n :: tail.
Proof.
  unfold past_shape2. destruct past as [|[key value] rest]; [discriminate|].
  destruct key as [|b [|h [|m tail]]]; try discriminate.
  intros [= ->]. now exists (b :: h :: n :: tail), value, rest, b, h, tail.
Qed.

(** X12: the checks of the decoder and those of the encoder agree on a
    call that both accept: the input is then of rank 2 (token ids) or 3
    (embeddings), the encoder reads the batch size and the sequence length
    off the shape that the decoder keeps, the batch size is the same, and
    so is the length of the past when the first cached key has rank 4. *)
Theorem decoder_encoder_agree (a : forward_args) (p : decoder_prepared)
    (q : encoder_prepared) :
  StudentDecoderModel_forward_inputs a = Ok p ->
  StudentEncoderModel_forward_inputs a = Ok q ->
  input_shape p = [enc_batch_size q; enc_seq_length q]
  /\ batch_size p = enc_batch_size q
  /\ 0 < enc_seq_length q
  /\ match past_key_values a with
     | Some ((key, _) :: _) =>
         length key = 4 -> past_length p = enc_past_length q
     | Some [] => False
     | None => past_length p = 0 /\ enc_past_length q = 0
     end.
Proof.
  destruct a as [ii ie tt pp past mask].
  unfold StudentDecoderModel_forward_inputs, StudentEncoderModel_forward_inputs.
  cbn [input_ids inputs_embeds token_type_ids position_ids past_key_values
       attention_mask].
  intros H G.
  step H sb Hsb. destruct sb as [ishape bsize].
  step H t Ht. step H pos Hpos. step H plen Hplen. step H pshape Hpshape.
  step H mshape Hmshape. injection H as <-.
  step G eshape Heshape. step G bl Hbl. destruct bl as [b l].
  step G elen Helen. injection G as <-.
  cbn [input_shape batch_size past_length enc_batch_size enc_seq_length
       enc_past_length].
  assert (Hl : eshape = [b; l])
    by (destruct eshape as [|x [|y [|z r]]]; try discriminate;
        now injection Hbl as <- <-).
  subst eshape. clear Hbl.
  assert (Hshape : ishape = [b; l] /\ bsize = b /\ (0 < l -> bsize = b)).
  { destruct ii as [s|], ie as [s'|]; try discriminate.
    - injection Heshape as ->.
      step Hsb n Hn. step Hsb r Hr. injection Hsb as <- <-.
      injection Hn as <-.
      destruct (view_infer_ok _ _ _ Hr) as [Hpos_l E].
      cbn [numel fold_right] in E.
      assert (r = b) by nia. auto.
    - injection Heshape as E.
      step Hsb b' Hb'. injection Hsb as <- <-.
      destruct s' as [|x [|y [|z [|w r]]]]; cbn in E; try discriminate.
      injection E as <- <-. now injection Hb' as <-. }
  destruct Hshape as (-> & -> & _).
  assert (Hpos_l : 0 < l).
  { destruct pp as [s|].
    - step Hpos n Hn. step Hpos rows Hrows. injection Hn as <-.
      now destruct (view_infer_ok _ _ _ Hrows).
    - injection Hpos as <-. step Hpshape n Hn. step Hpshape rows Hrows.
      injection Hn as <-. now destruct (view_infer_ok _ _ _ Hrows). }
  split; [reflexivity|]. split; [reflexivity|]. split; [assumption|].
  destruct past as [[|[key value] rest]|].
  - discriminate.
  - intros Hrank.
    destruct key as [|k0 [|k1 [|k2 [|k3 [|k4 key]]]]]; try discriminate.
    cbn in Hplen, Helen. congruence.
  - injection Hplen as <-. injection Helen as <-. auto.
Qed.

Lemma decoder_encoder_agree_witness :
  [2; 3] = [2; 3] /\ 2 = 2 /\ 0 < 3 /\ (4 = 4 -> 5 = 5).
Proof.
  exact (decoder_encoder_agree
           (mkArgs (Some [2; 3]) None None None
                   (Some [([2; 4; 5; 8], [2; 4; 5; 8])]) None)
           (mkPrepared [2; 3] 2 5 [1; 3] None)
           (mkEncPrepared 2 3 5) eq_refl eq_refl).
Defined.

(** ** GrafomerModel and its bridge *)

(** X13: [GrafomerModel.forward] returns only on a call that supplies
    either decoder token ids of rank 2 or more together with their
    attention mask, or, without decoder token ids, encoder token ids of
    rank 2. *)
Theorem GrafomerModel_forward_requires {T : Type} (self : GrafomerModel T)
    (a : grafomer_args T) (out : Seq2SeqLMOutput T) :
  GrafomerModel_forward self a = Ok out ->
  match g_decoder_input_ids a with
  | Some decoder_ids =>
      (exists m, g_decoder_attention_mask a = Some m)
      /\ 2 <= length (shape_of self decoder_ids)
  | None =>
      exists token_ids,
        g_input_ids a = Some token_ids
        /\ length (shape_of self token_ids) = 2
  end.
Proof.
  unfold GrafomerModel_forward. intros H.
  step H s Hs. clear H.
  unfold GrafomerModel_forward_stage in Hs.
  step Hs enc Henc.
  destruct (g_decoder_input_ids a) as [d|].
  - step Hs dec Hdec. step Hs mask Hmask. step Hs sh Hsh.
    step Hs causal Hc. step Hs padding Hp. step Hs dmask Hd.
    step Hs tgt Htgt. split.
    + destruct (g_decoder_attention_mask a) as [m|]; [eauto | discriminate].
    + destruct (shape_of self d) as [|x [|y r]]; try discriminate.
      cbn [length]. lia.
  - step Hs dec Hdec. step Hs sh Hsh. step Hs bl Hbl.
    destruct (g_input_ids a) as [i|]; [|discriminate].
    exists i. split; [reflexivity|].
    cbn [shape_attr] in Hsh. injection Hsh as <-.
    destruct (shape_of self i) as [|x [|y [|z r]]]; try discriminate.
    reflexivity.
Qed.

Lemma GrafomerModel_forward_requires_witness :
  (exists m, Some 1%Z = Some m) /\ 2 <= 2.
Proof.
  exact (GrafomerModel_forward_requires sample_grafomer sample_call
           (mkOutput 40%Z) eq_refl).
Defined.

(** X14: [GrafomerModel.forward] never returns on the inputs that
    [GrafomerModel.prepare_inputs_for_generation] prepares: they hold
    decoder token ids and no decoder attention mask.  When the encoder
    outputs are supplied and the decoder body and the mask expansion
    return, what is raised is the [AttributeError] of reading [.shape] off
    [None]. *)
Theorem prepared_inputs_not_accepted {T K : Type} (self : GrafomerModel T)
    (tensor_of : ids -> T) (decoder_input_ids : ids) (past : option (list K))
    (attention_mask head_mask decoder_head_mask cross_attn_head_mask : option T)
    (use_cache : option bool) (encoder_outputs : option (outputs T))
    (output_attentions output_hidden_states return_dict : option bool) :
  let prepared :=
    GrafomerModel_prepare_inputs_for_generation decoder_input_ids past
      attention_mask head_mask decoder_head_mask cross_attn_head_mask
      use_cache encoder_outputs in
  let call :=
    forward_on_prepared tensor_of prepared output_attentions
      output_hidden_states return_dict in
  (exists e, GrafomerModel_forward self call = Raise e)
  /\ (supplied encoder_outputs = true ->
      (exists o, decoder_body self
                   (Some (tensor_of (gi_decoder_input_ids prepared))) None
                   use_cache = Ok o) ->
      (exists m, _expand_mask self attention_mask None = Ok m) ->
      GrafomerModel_forward self call
      = Raise (AttributeError "'NoneType' object has no attribute 'shape'")).
Proof.
  intros prepared call.
  assert (Hnot : forall out, GrafomerModel_forward self call <> Ok out).
  { intros out H. unfold GrafomerModel_forward in H.
    step H s Hs. clear H.
    unfold GrafomerModel_forward_stage in Hs.
    step Hs enc Henc.
    cbn [call forward_on_prepared g_decoder_input_ids
         g_decoder_attention_mask] in Hs.
    step Hs dec Hdec. step Hs mask Hmask. step Hs sh Hsh.
    discriminate. }
  split.
  - destruct (GrafomerModel_forward self call) as [out|e]; [|eauto].
    now destruct (Hnot out).
  - intros Henc [o Ho] [m Hm].
    destruct encoder_outputs as [enc|]; [|discriminate].
    unfold GrafomerModel_forward, GrafomerModel_forward_stage.
    cbn [call prepared forward_on_prepared
         GrafomerModel_prepare_inputs_for_generation
         g_encoder_outputs g_decoder_input_ids g_decoder_attention_mask
         g_use_cache g_attention_mask gi_encoder_outputs gi_use_cache
         gi_attention_mask gi_decoder_input_ids obind] in *.
    rewrite Ho. cbn [obind]. rewrite Hm. reflexivity.
Qed.

Lemma prepared_inputs_not_accepted_witness :
  GrafomerModel_forward sample_grafomer
    (forward_on_prepared (fun _ => 5%Z)
       (@GrafomerModel_prepare_inputs_for_generation Z nat sample_ids
          (Some [0]) (Some 1%Z) None None None None (Some (1%Z, [])))
       None None (Some true))
  = Raise (AttributeError "'NoneType' object has no attribute 'shape'").
Proof.
  apply (proj2 (@prepared_inputs_not_accepted Z nat sample_grafomer
                  (fun _ => 5%Z) sample_ids (Some [0]) (Some 1%Z) None None
                  None None (Some (1%Z, [])) None None (Some true))).
  - reflexivity.
  - eexists. reflexivity.
  - eexists. reflexivity.
Defined.

Lemma mask_at_ok {T : Type} (head_mask : option (list T)) idx m :
  mask_at head_mask idx = Ok m ->
  match head_mask with
  | Some l => idx < length l
  | None => True
  end.
Proof.
  unfold mask_at. destruct head_mask as [l|]; [|auto].
  destruct (nth_error l idx) eqn:E; [|discriminate].
  intros _. apply nth_error_Some. congruence.
Qed.

Lemma run_graft_encoder_masks {T : Type} (layers : list (encoder_layer T))
    idx h mask (head_mask : option (list T)) oa out :
  run_graft_encoder layers idx h mask head_mask oa = Ok out ->
  match head_mask with
  | Some l => layers = [] \/ idx + length layers <= length l
  | None => True
  end.
Proof.
  revert idx h. induction layers as [|layer layers IH]; intros idx h H.
  - destruct head_mask; auto.
  - cbn [run_graft_encoder] in H.
    step H m Hm. step H h' Hh'.
    apply mask_at_ok in Hm. apply IH in H.
    destruct head_mask as [l|]; [|exact I].
    right. cbn [length]. destruct H as [-> | H]; cbn [length]; lia.
Qed.

Lemma run_graft_decoder_masks {T : Type} (layers : list (decoder_layer T))
    idx h dmask e cmask (head_mask cross : option (list T)) oa uc out :
  run_graft_decoder layers idx h dmask e cmask head_mask cross oa uc = Ok out ->
  match head_mask with
  | Some l => layers = [] \/ idx + length layers <= length l
  | None => True
  end
  /\ match cross with
     | Some l => layers = [] \/ idx + length layers <= length l
     | None => True
     end.
Proof.
  revert idx h. induction layers as [|layer layers IH]; intros idx h H.
  - destruct head_mask, cross; auto.
  - cbn [run_graft_decoder] in H.
    step H m Hm. step H c Hc. step H h' Hh'.
    apply mask_at_ok in Hm. apply mask_at_ok in Hc. apply IH in H.
    destruct H as [H1 H2]. split.
    + destruct head_mask as [l|]; [|exact I].
      right. cbn [length]. destruct H1 as [-> | H1]; cbn [length]; lia.
    + destruct cross as [l|]; [|exact I].
      right. cbn [length]. destruct H2 as [-> | H2]; cbn [length]; lia.
Qed.

(** X15: [GraftAttentionModule.forward] returns only when the head mask,
    if there is one, has an entry for every layer of the bridge encoder
    and for every layer of the bridge decoder (both read it at the index
    of the layer), and the cross-attention head mask one for every layer
    of the bridge decoder; with a shorter mask the call raises. *)
Theorem GraftAttentionModule_forward_masks {T : Type}
    (self : GraftAttentionModule T)
    (encoder_hidden_states encoder_attention_mask decoder_hidden_states
       decoder_attention_mask cross_attention_mask : T)
    (output_attentions : option bool)
    (cross_attn_head_mask : option (list T)) (use_cache : bool)
    (head_mask : option (list T)) (out : T) :
  GraftAttentionModule_forward self encoder_hidden_states
    encoder_attention_mask decoder_hidden_states decoder_attention_mask
    cross_attention_mask output_attentions cross_attn_head_mask use_cache
    head_mask = Ok out ->
  match head_mask with
  | Some l => length (graft_encoder self) <= length l
              /\ length (graft_decoder self) <= length l
  | None => True
  end
  /\ match cross_attn_head_mask with
     | Some l => length (graft_decoder self) <= length l
     | None => True
     end.
Proof.
  unfold GraftAttentionModule_forward. intros H.
  step H d Hd. step H e He. step H d' Hd'.
  apply run_graft_encoder_masks in He.
  apply run_graft_decoder_masks in Hd'. destruct Hd' as [H1 H2].
  split.
  - destruct head_mask as [l|]; [|exact I]. split.
    + destruct He as [-> | He]; cbn [length]; lia.
    + destruct H1 as [-> | H1]; cbn [length]; lia.
  - destruct cross_attn_head_mask as [l|]; [|exact I].
    destruct H2 as [-> | H2]; cbn [length]; lia.
Qed.

Lemma GraftAttentionModule_forward_masks_witness :
  (2 <= 2 /\ 1 <= 2) /\ 1 <= 1.
Proof.
  exact (GraftAttentionModule_forward_masks sample_bridge 1%Z 0%Z 2%Z 0%Z 0%Z
           None (Some [7%Z]) false (Some [10; 20]%Z) 43%Z eq_refl).
Defined.

(** ** StudentEncoder *)

(** The loop over the layers binds [all_cross_attentions] in no case. *)
Lemma StudentEncoder_layers_unbound {V : Type} (self : StudentEncoder V)
    layers i attention_mask head_mask encoder_hidden_states
    encoder_attention_mask past_key_values output_attentions
    output_hidden_states (loc loc' : encoder_locals V) :
  StudentEncoder_layers self layers i attention_mask head_mask
    encoder_hidden_states encoder_attention_mask past_key_values
    output_attentions output_hidden_states loc = Ok loc' ->
  l_all_cross_attentions loc = None ->
  l_all_cross_attentions loc' = None.
Proof.
  revert i loc. induction layers as [|layer layers IH]; intros i loc H Hc.
  - cbn in H. now injection H as <-.
  - cbn [StudentEncoder_layers] in H.
    step H ahs Hahs. step H lhm Hlhm. step H pkv Hpkv. cbv zeta in H.
    step H outs Houts. step H hs Hhs. step H ndc Hndc.
    step H sc Hsc. destruct sc as [sa ca].
    apply IH in H; [exact H|]. cbn [l_all_cross_attentions].
    destruct (istrue output_attentions).
    + step Hsc att Hatt. step Hsc sa' Hsa. step Hsc add Hadd.
      destruct add.
      * rewrite Hc in Hsc. discriminate.
      * injection Hsc as _ <-. exact Hc.
    + injection Hsc as _ <-. exact Hc.
Qed.

(** Without attentions, head mask and cache, layers that return their
    hidden state are all run. *)
Lemma StudentEncoder_layers_run {V : Type} (self : StudentEncoder V)
    layers i attention_mask encoder_hidden_states encoder_attention_mask
    output_attentions output_hidden_states (loc : encoder_locals V) :
  istrue output_attentions = false ->
  Forall (fun layer : student_encoder_layer V =>
            forall h m lm eh em p oa, exists x rest,
              layer h m lm eh em p oa = Ok (x :: rest)) layers ->
  (istrue output_hidden_states = true -> l_all_hidden_states loc <> None) ->
  (l_use_cache loc = true -> l_next_decoder_cache loc <> None) ->
  exists loc',
    StudentEncoder_layers self layers i attention_mask None
      encoder_hidden_states encoder_attention_mask None
      output_attentions output_hidden_states loc = Ok loc'
    /\ (istrue output_hidden_states = true -> l_all_hidden_states loc' <> None).
Proof.
  intros Hoa Hl. revert i loc.
  induction Hl as [|layer layers Hlayer _ IH]; intros i loc Hh Hu.
  - exists loc. split; [reflexivity | assumption].
  - cbn [StudentEncoder_layers mask_at]. rewrite Hoa.
    destruct (Hlayer (l_hidden_states loc) attention_mask None
                encoder_hidden_states encoder_attention_mask None
                output_attentions) as (x & rest & Hx).
    assert (Hahs : exists ahs,
               (if istrue output_hidden_states
                then tuple_add (l_all_hidden_states loc) (l_hidden_states loc)
                else Ok (l_all_hidden_states loc)) = Ok ahs
               /\ (istrue output_hidden_states = true -> ahs <> None)).
    { destruct (istrue output_hidden_states).
      - destruct (l_all_hidden_states loc) as [l|]; [|now destruct Hh].
        eexists. split; [reflexivity | discriminate].
      - eexists. split; [reflexivity | discriminate]. }
    destruct Hahs as (ahs & -> & Hahs).
    cbn [obind]. rewrite Hx. cbn [obind item nth_error].
    set (use_cache := if se_gradient_checkpointing self && se_training self
                      then false else l_use_cache loc).
    assert (Hndc : exists ndc,
               (if use_cache
                then tuple_add (l_next_decoder_cache loc) (last (x :: rest) x)
                else Ok (l_next_decoder_cache loc)) = Ok ndc
               /\ (use_cache = true -> ndc <> None)).
    { destruct use_cache eqn:E.
      - assert (Hc : l_use_cache loc = true).
        { unfold use_cache in E.
          destruct (se_gradient_checkpointing self && se_training self);
            [discriminate | exact E]. }
        destruct (l_next_decoder_cache loc) as [l|]; [|now destruct (Hu Hc)].
        eexists. split; [reflexivity | discriminate].
      - eexists. split; [reflexivity | discriminate]. }
    destruct Hndc as (ndc & -> & Hndc).
    cbn [obind]. apply IH; assumption.
Qed.

(** X16: [StudentEncoder.forward] never returns: whatever the layers, the
    flags and the arguments, it ends in an exception.  Both of its
    [return] statements read the local variable [all_cross_attentions],
    which no path binds.  When no attentions, no head mask and no cache are
    asked for and every layer returns its hidden state, the exception is
    the [UnboundLocalError] of that read. *)
Theorem StudentEncoder_forward_never_returns {V : Type}
    (self : StudentEncoder V) (hidden_states : V) (attention_mask : option V)
    (head_mask : option (list (option V)))
    (encoder_hidden_states encoder_attention_mask : option V)
    (past_key_values : option (list V))
    (use_cache output_attentions output_hidden_states return_dict
       : option bool) :
  (exists e,
     StudentEncoder_forward self hidden_states attention_mask head_mask
       encoder_hidden_states encoder_attention_mask past_key_values
       use_cache output_attentions output_hidden_states return_dict
     = Raise e)
  /\ (istrue output_attentions = false ->
      head_mask = None -> past_key_values = None ->
      Forall (fun layer : student_encoder_layer V =>
                forall h m lm eh em p oa, exists x rest,
                  layer h m lm eh em p oa = Ok (x :: rest)) (se_layer self) ->
      StudentEncoder_forward self hidden_states attention_mask head_mask
        encoder_hidden_states encoder_attention_mask past_key_values
        use_cache output_attentions output_hidden_states return_dict
      = Raise (NameError "local variable 'all_cross_attentions' referenced before assignment")).
Proof.
  split.
  - unfold StudentEncoder_forward. cbv zeta.
    destruct (StudentEncoder_layers _ _ _ _ _ _ _ _ _ _ _) as [loc|e] eqn:H;
      [|cbn [obind]; eauto].
    apply StudentEncoder_layers_unbound in H; [|reflexivity].
    cbn [obind].
    destruct (if istrue output_hidden_states then _ else _) as [ahs|e];
      [|cbn [obind]; eauto].
    cbn [obind]. rewrite H.
    destruct (negb (istrue return_dict)); cbn [read_local obind]; eauto.
  - intros Hoa -> -> Hl.
    unfold StudentEncoder_forward. cbv zeta.
    destruct (StudentEncoder_layers_run self (se_layer self) 0 attention_mask
                encoder_hidden_states encoder_attention_mask output_attentions
                output_hidden_states
                (mkLocals hidden_states (istrue use_cache)
                   (if istrue output_hidden_states then Some [] else None)
                   (if istrue output_attentions then Some [] else None)
                   (if istrue use_cache then Some [] else None) None)
                Hoa Hl) as (loc & Hloc & Hh).
    + cbn [l_all_hidden_states]. intros ->. discriminate.
    + cbn [l_use_cache l_next_decoder_cache]. intros ->. discriminate.
    + rewrite Hloc. cbn [obind].
      apply StudentEncoder_layers_unbound in Hloc; [|reflexivity].
      destruct (istrue output_hidden_states) eqn:Eh.
      * destruct (l_all_hidden_states loc) as [l|]; [|now destruct Hh].
        cbn [tuple_add obind]. rewrite Hloc.
        destruct (negb (istrue return_dict)); reflexivity.
      * cbn [obind]. rewrite Hloc.
        destruct (negb (istrue return_dict)); reflexivity.
Qed.

Lemma StudentEncoder_forward_never_returns_witness :
  StudentEncoder_forward sample_encoder 0%Z None None None None None
    (Some true) None (Some true) (Some true)
  = Raise (NameError "local variable 'all_cross_attentions' referenced before assignment").
Proof.
  apply (proj2 (StudentEncoder_forward_never_returns sample_encoder 0%Z None
                  None None None None (Some true) None (Some true)
                  (Some true))); try reflexivity.
  repeat constructor; intros; eauto.
Defined.
